(** * spixels-pixel-push: the PixelPusher output devices over spixels

    A shallow embedding of [src/spixels-pixel-push.cc]: the two
    [pp::OutputDevice] implementations [APA102SpixelsDevice] and
    [LPD6803SpixelsDevice], which receive PixelPusher commands and pixel
    writes and drive LED strips through the spixels library, and [usage]
    and [main], which parse the options and build the device.

    The spixels library ([led-strip.h], [multi-spi.h]) and the PixelPusher
    server ([pp-server.h]) are separate code bases.  Every call the devices
    make into them is recorded, in order, in a log of events; what a strip
    or the bus has been told so far is read back from that log.

    Integers are [Z] with the wrap-around of [uint32_t] written out, [int]
    is 32 bits wide, the command buffer is a list of bytes read little-endian,
    and [float] is binary32.  The signedness of plain [char] and the
    constants of headers outside this file are parameters ([Env]). *)

From Stdlib Require Import ZArith List Lia Bool String Ascii QArith.
From Stdlib Require Import Strings.Byte Numbers.DecimalString.
From Stdlib Require Import Numbers.DecimalN Numbers.DecimalPos.
From Stdlib Require Import Floats.SpecFloat.
Import ListNotations.
Open Scope Z_scope.

(** ** Machine integers and bytes *)

(** Conversion to [uint32_t]: reduction modulo 2^32. *)
Definition uint32 (z : Z) : Z := z mod 2 ^ 32.

(** The value 0..255 of a byte of the command buffer. *)
Definition u8 (b : byte) : Z := Z.of_N (Byte.to_N b).

(** Integer promotion of a plain [char].  Whether plain [char] is signed is
    fixed by the ABI: it is unsigned on the ARM Linux ABIs of the Raspberry
    Pi, the hardware spixels drives, and signed on x86. *)
Definition char_to_int (char_signed : bool) (b : byte) : Z :=
  if char_signed && (128 <=? u8 b) then u8 b - 256 else u8 b.

(** ** Binary32 arithmetic

    [float] is IEEE 754 binary32: 24 bits of precision, exponents below
    128, operations rounded to nearest even. *)
Definition float : Type := spec_float.

Definition float_prec : Z := 24.
Definition float_emax : Z := 128.

(** Conversion of a [uint32_t] to [float]. *)
Definition float_of_uint32 (n : Z) : float :=
  binary_normalize float_prec float_emax n 0 false.

Definition float_div (x y : float) : float := SFdiv float_prec float_emax x y.

(** The literal [65536.0f] = 2^23 * 2^-7. *)
Definition f65536 : float := S754_finite false 8388608 (-7).

(** The literal [1.0f] = 2^23 * 2^-23. *)
Definition f1 : float := S754_finite false 8388608 (-23).

(** The rational a finite float denotes. *)
Definition float_value (x : float) : option Q :=
  match x with
  | S754_zero _ => Some 0%Q
  | S754_finite s m e =>
      let a := if s then Z.neg m else Z.pos m in
      Some (match e with
            | Z.neg p => (a # 2 ^ p)%Q
            | _ => inject_Z (a * 2 ^ e)
            end)
  | S754_infinity _ | S754_nan => None
  end.

(** ** The world outside the devices *)

(** Objects the spixels factories return are named by handles. *)
Definition Handle : Type := nat.

Inductive Chip : Type := APA102 | LPD6803.

Inductive Event : Type :=
| ECreateDirectMultiSPI (speed_mhz : Z) (spi : Handle)
| ECreateStrip (chip : Chip) (spi : Handle) (pin : Z) (count : Z) (strip : Handle)
| ESetBrightnessScale (strip : Handle) (scale : float)
| ESetPixel8 (strip : Handle) (pos : Z) (red green blue : Z)
| ESendBuffers (spi : Handle)
| ELoad (offset : Z)
| EStderr (line : string).

Record World : Type := mkWorld {
  next_handle : Handle;
  log : list Event
}.

(** What the translation unit takes from the ABI and from headers outside
    [src/]. *)
Class Env : Type := mkEnv {
  (** signedness of plain [char] *)
  char_signed : bool;
  (** enum constants of [universal-discovery-protocol.h] *)
  PPPusherCommandGlobalBrightness : Z;
  PPPusherCommandStripBrightness : Z;
  (** [spixels::MultiSPI::SPIPinForConnector] *)
  SPIPinForConnector : Z -> Z;
  (** the events of [pp::OutputDevice::HandlePusherCommand], the base-class
      member a device inherits when it declares none of its own *)
  OutputDevice_HandlePusherCommand : list byte -> Z -> list Event
}.

(** ** A state monad with failure

    A computation over a state [S] returns a value and the next state, or
    [None] when the code does not return normally: a read outside an array,
    whose behaviour is undefined, or an exception. *)

Definition SE (S A : Type) : Type := S -> option (A * S).

Definition ret {S A : Type} (a : A) : SE S A := fun s => Some (a, s).

Definition bind {S A B : Type} (m : SE S A) (k : A -> SE S B) : SE S B :=
  fun s => match m s with
           | Some (a, s') => k a s'
           | None => None
           end.

(** The code does not return normally. *)
Definition undefined {S A : Type} : SE S A := fun _ => None.

Notation "x <- m ;; k" := (bind m (fun x => k))
  (at level 61, m at next level, right associativity).
Notation "m ;; k" := (bind m (fun _ => k))
  (at level 61, right associativity).

(** [for (int i = lo; i < lo + count; ++i) body(i)] *)
Fixpoint for_int {S : Type} (lo : Z) (count : nat) (body : Z -> SE S unit)
  : SE S unit :=
  match count with
  | O => ret tt
  | Datatypes.S count' => body lo ;; for_int (lo + 1) count' body
  end.

(** *** Calls into the world *)

Definition emit (e : Event) : SE World unit :=
  fun w => Some (tt, mkWorld (next_handle w) (log w ++ [e])).

Definition emit_all (es : list Event) : SE World unit :=
  fun w => Some (tt, mkWorld (next_handle w) (log w ++ es)).

Definition fresh : SE World Handle :=
  fun w => Some (next_handle w, mkWorld (Datatypes.S (next_handle w)) (log w)).

Definition CreateDirectMultiSPI (speed_mhz : Z) : SE World Handle :=
  spi <- fresh ;; emit (ECreateDirectMultiSPI speed_mhz spi) ;; ret spi.

Definition CreateAPA102Strip (spi : Handle) (pin count : Z) : SE World Handle :=
  strip <- fresh ;; emit (ECreateStrip APA102 spi pin count strip) ;; ret strip.

Definition CreateLPD6803Strip (spi : Handle) (pin count : Z) : SE World Handle :=
  strip <- fresh ;; emit (ECreateStrip LPD6803 spi pin count strip) ;; ret strip.

Definition SetBrightnessScale (strip : Handle) (scale : float) : SE World unit :=
  emit (ESetBrightnessScale strip scale).

Definition SetPixel8 (strip : Handle) (pos red green blue : Z) : SE World unit :=
  emit (ESetPixel8 strip pos red green blue).

Definition SendBuffers (spi : Handle) : SE World unit :=
  emit (ESendBuffers spi).

(** [buf[off]]: a read past the end of the buffer is undefined. *)
Definition load8 (buf : list byte) (off : Z) : SE World byte :=
  match nth_error buf (Z.to_nat off) with
  | Some b => emit (ELoad off) ;; ret b
  | None => undefined
  end.

(** [*(uint16_t* )(buf + off)], a 16-bit load at any alignment: the target
    is little-endian, the byte at [off] is the low one. *)
Definition load16 (buf : list byte) (off : Z) : SE World Z :=
  lo <- load8 buf off ;;
  hi <- load8 buf (off + 1) ;;
  ret (u8 lo + 256 * u8 hi).

Definition newline : string := String (ascii_of_nat 10) EmptyString.

(** [fprintf(stderr, "HandlePusherCommand() - unknown command:%u\n", c)] *)
Definition unknown_command_line (c : Z) : string :=
  ("HandlePusherCommand() - unknown command:"
     ++ NilZero.string_of_uint (N.to_uint (Z.to_N c)) ++ newline)%string.

(** ** pp::PixelColor and pp::OutputDevice *)

Record PixelColor : Type := mkPixelColor {
  red : Z;
  green : Z;
  blue : Z
}.

(** A device object in its world. *)
Record Object (D : Type) : Type := mkObject {
  this : D;
  world : World
}.
Arguments mkObject {D} _ _.
Arguments this {D} _.
Arguments world {D} _.

(** A call into the world, made from a member function. *)
Definition extern {D A : Type} (m : SE World A) : SE (Object D) A :=
  fun o => match m (world o) with
           | Some (a, w) => Some (a, mkObject (this o) w)
           | None => None
           end.

(** Reading a data member. *)
Definition member {D A : Type} (f : D -> A) : SE (Object D) A :=
  fun o => Some (f (this o), o).

(** The virtual interface of [pp::OutputDevice] the server calls. *)
Class OutputDevice (D : Type) : Type := {
  num_strips : SE (Object D) Z;
  num_pixel_per_strip : SE (Object D) Z;
  HandlePusherCommand : list byte -> Z -> SE (Object D) unit;
  SetPixel : Z -> Z -> PixelColor -> SE (Object D) unit;
  FlushFrame : SE (Object D) unit
}.

(** ** Reading the log *)

(** The object after further events. *)
Definition logged {D : Type} (o : Object D) (es : list Event) : Object D :=
  mkObject (this o) (mkWorld (next_handle (world o)) (log (world o) ++ es)).

(** The byte at an offset of the command buffer. *)
Definition byte_at (buf : list byte) (off : Z) : byte :=
  nth (Z.to_nat off) buf Byte.x00.

(** The calls made into spixels, without the bookkeeping of loads and
    diagnostics. *)
Definition is_driver_call (e : Event) : bool :=
  match e with
  | ELoad _ | EStderr _ => false
  | _ => true
  end.

Definition driver_calls (l : list Event) : list Event := filter is_driver_call l.

(** The calls that forward pixels and flush frames. *)
Definition is_pixel_or_flush (e : Event) : bool :=
  match e with
  | ESetPixel8 _ _ _ _ _ | ESendBuffers _ => true
  | _ => false
  end.

Definition is_brightness_call (e : Event) : bool :=
  match e with
  | ESetBrightnessScale _ _ => true
  | _ => false
  end.

(** The lines written to stderr. *)
Definition stderr_of (e : Event) : list string :=
  match e with
  | EStderr line => [line]
  | _ => []
  end.

Definition stderr (l : list Event) : list string := flat_map stderr_of l.

(** The offsets of the command buffer that were read. *)
Definition load_of (e : Event) : list Z :=
  match e with
  | ELoad off => [off]
  | _ => []
  end.

Definition loads (l : list Event) : list Z := flat_map load_of l.

(** The scale a strip was last given. *)
Definition brightness_step (strip : Handle) (acc : option float) (e : Event)
  : option float :=
  match e with
  | ESetBrightnessScale h s => if Nat.eqb h strip then Some s else acc
  | _ => acc
  end.

Definition brightness (l : list Event) (strip : Handle) : option float :=
  fold_left (brightness_step strip) l None.

(** The colour a pixel of a strip was last given. *)
Definition pixel_step (strip : Handle) (pos : Z) (acc : option PixelColor)
  (e : Event) : option PixelColor :=
  match e with
  | ESetPixel8 h p r g b =>
      if Nat.eqb h strip && (p =? pos) then Some (mkPixelColor r g b) else acc
  | _ => acc
  end.

Definition buffered_pixel (l : list Event) (strip : Handle) (pos : Z)
  : option PixelColor :=
  fold_left (pixel_step strip pos) l None.

(** For each [SendBuffers] of the log, in order, the events that came before
    it: what the strips had been told when the bus was asked to transmit. *)
Fixpoint transmissions_from (seen rest : list Event) : list (list Event) :=
  match rest with
  | [] => []
  | e :: rest' =>
      match e with
      | ESendBuffers _ => [seen]
      | _ => []
      end ++ transmissions_from (seen ++ [e]) rest'
  end.

Definition transmissions (l : list Event) : list (list Event) :=
  transmissions_from [] l.

(** ** The calls of the server *)

Inductive Call : Type :=
| CallHandlePusherCommand (buf : list byte) (size : Z)
| CallSetPixel (strip pixel : Z) (col : PixelColor)
| CallFlushFrame.

Definition call {D : Type} {dev : OutputDevice D} (c : Call)
  : SE (Object D) unit :=
  match c with
  | CallHandlePusherCommand buf size => HandlePusherCommand buf size
  | CallSetPixel strip pixel col => SetPixel strip pixel col
  | CallFlushFrame => FlushFrame
  end.

Fixpoint run {D : Type} {dev : OutputDevice D} (cs : list Call)
  : SE (Object D) unit :=
  match cs with
  | [] => ret tt
  | c :: cs' => call c ;; run cs'
  end.

(** What the types of the interface promise of a call: the buffer holds
    [size] bytes, and strip and pixel are [uint32_t]. *)
Definition call_ok (c : Call) : Prop :=
  match c with
  | CallHandlePusherCommand buf size => 0 <= size <= Z.of_nat (List.length buf)
  | CallSetPixel strip pixel _ => 0 <= strip < 2 ^ 32 /\ 0 <= pixel < 2 ^ 32
  | CallFlushFrame => True
  end.

(** ** Exhaustive checks over a range *)

(** [all_below p f base]: [f] holds of the [p] integers from [base] on. *)
Fixpoint all_below (p : positive) (f : Z -> bool) (base : Z) : bool :=
  match p with
  | xH => f base
  | xO q => all_below q f base && all_below q f (base + Z.pos q)
  | xI q =>
      all_below q f base && all_below q f (base + Z.pos q)
      && f (base + Z.pos q + Z.pos q)
  end.

(** A float denotes a given rational. *)
Definition float_denotes (x : float) (q : Q) : Prop :=
  match float_value x with
  | Some q' => Qeq q' q
  | None => False
  end.

Definition float_denotes_b (x : float) (q : Q) : bool :=
  match float_value x with
  | Some q' => Qeq_bool q' q
  | None => false
  end.

(** ** Deleting objects

    What a destructor deletes, in order. *)

Inductive Free : Type :=
| FreeStrip (strip : Handle)
| FreeStripArray
| FreeMultiSPI (spi : Handle).

Definition free (f : Free) : SE (list Free) unit :=
  fun freed => Some (tt, freed ++ [f]).

(** ** class APA102SpixelsDevice *)

Module APA102SpixelsDevice.

Definition kAPA102ClockMhz : Z := 12.

(** The data members. *)
Record t : Type := mk {
  num_strips_ : Z;
  strip_len_ : Z;
  strips_ : list Handle;
  spi_ : Handle
}.

Section Members.
Context {env : Env}.

(** [strips_[strip] = CreateAPA102Strip(spi_, SPIPinForConnector(strip + 1),
    strip_len_)] for [strip] from [lo], [count] times; returns the array
    filled so far. *)
Fixpoint create_strips (spi : Handle) (strip_len : Z) (lo : Z) (count : nat)
  : SE World (list Handle) :=
  match count with
  | O => ret []
  | S count' =>
      h <- CreateAPA102Strip spi (SPIPinForConnector (lo + 1)) strip_len ;;
      hs <- create_strips spi strip_len (lo + 1) count' ;;
      ret (h :: hs)
  end.

(** The constructor.  [new spixels::LEDStrip* [num_strips_]] throws for a
    negative length: no object is built. *)
Definition new (num_strips strip_len : Z) : SE World t :=
  if num_strips <? 0 then undefined
  else
    spi <- CreateDirectMultiSPI kAPA102ClockMhz ;;
    strips <- create_strips spi strip_len 0 (Z.to_nat num_strips) ;;
    ret (mk num_strips strip_len strips spi).

(** [strips_[i]]: a read outside the array is undefined. *)
Definition strips_at (i : Z) : SE (Object t) Handle :=
  fun o => match nth_error (strips_ (this o)) (Z.to_nat i) with
           | Some h => Some (h, o)
           | None => None
           end.

Definition num_strips : SE (Object t) Z := member num_strips_.

Definition num_pixel_per_strip : SE (Object t) Z := member strip_len_.

(** [brightnessScale16 / 65536.0f] *)
Definition scale_of (brightnessScale16 : Z) : float :=
  float_div (float_of_uint32 brightnessScale16) f65536.

Definition HandlePusherCommand (buf : list byte) (size : Z)
  : SE (Object t) unit :=
  if 1 <=? size then
    c0 <- extern (load8 buf 0) ;;
    let tag := char_to_int char_signed c0 in
    if tag =? PPPusherCommandGlobalBrightness then
      if 3 <=? size then
        v <- extern (load16 buf 1) ;;
        let brightnessScale16 := uint32 (uint32 v + 1) in
        n <- member num_strips_ ;;
        for_int 0 (Z.to_nat n) (fun strip =>
          h <- strips_at strip ;;
          extern (SetBrightnessScale h (scale_of brightnessScale16)))
      else ret tt
    else if tag =? PPPusherCommandStripBrightness then
      if 4 <=? size then
        c1 <- extern (load8 buf 1) ;;
        let strip := uint32 (char_to_int char_signed c1) in
        n <- member num_strips_ ;;
        if strip <? uint32 n then
          v <- extern (load16 buf 2) ;;
          let brightnessScale16 := uint32 (uint32 v + 1) in
          h <- strips_at strip ;;
          extern (SetBrightnessScale h (scale_of brightnessScale16))
        else ret tt
      else ret tt
    else
      c <- extern (load8 buf 0) ;;
      extern (emit (EStderr
        (unknown_command_line (uint32 (char_to_int char_signed c)))))
  else ret tt.

Definition SetPixel (strip pixel : Z) (col : PixelColor)
  : SE (Object t) unit :=
  n <- member num_strips_ ;;
  if strip <? uint32 n then
    h <- strips_at strip ;;
    extern (SetPixel8 h pixel (red col) (green col) (blue col))
  else ret tt.

Definition FlushFrame : SE (Object t) unit :=
  spi <- member spi_ ;;
  extern (SendBuffers spi).

#[global] Instance device : OutputDevice t := {
  num_strips := num_strips;
  num_pixel_per_strip := num_pixel_per_strip;
  HandlePusherCommand := HandlePusherCommand;
  SetPixel := SetPixel;
  FlushFrame := FlushFrame
}.

(** What the constructor establishes: as many distinct strip handles as
    [num_strips_] says, and [num_strips_] a non-negative [int]. *)
Definition wf (d : t) : Prop :=
  0 <= num_strips_ d < 2 ^ 31
  /\ List.length (strips_ d) = Z.to_nat (num_strips_ d)
  /\ NoDup (strips_ d).

(** The handle of the strip at an index. *)
Definition strip_handle (d : t) (k : Z) : Handle :=
  nth (Z.to_nat k) (strips_ d) O.

(** The scale the strip at an index was last given. *)
Definition strip_brightness (o : Object t) (k : Z) : option float :=
  brightness (log (world o)) (strip_handle (this o) k).

(** The little-endian 16-bit value at an offset of the buffer. *)
Definition u16_at (buf : list byte) (off : Z) : Z :=
  u8 (byte_at buf off) + 256 * u8 (byte_at buf (off + 1)).

(** The events of a command, branch by branch. *)
Definition command_events (d : t) (buf : list byte) (size : Z) : list Event :=
  if 1 <=? size then
    let tag := char_to_int char_signed (byte_at buf 0) in
    if tag =? PPPusherCommandGlobalBrightness then
      if 3 <=? size then
        [ELoad 0; ELoad 1; ELoad 2]
          ++ map (fun h => ESetBrightnessScale h (scale_of (u16_at buf 1 + 1)))
                 (strips_ d)
      else [ELoad 0]
    else if tag =? PPPusherCommandStripBrightness then
      if 4 <=? size then
        let strip := uint32 (char_to_int char_signed (byte_at buf 1)) in
        if strip <? num_strips_ d then
          [ELoad 0; ELoad 1; ELoad 2; ELoad 3;
           ESetBrightnessScale (strip_handle d strip)
                               (scale_of (u16_at buf 2 + 1))]
        else [ELoad 0; ELoad 1]
      else [ELoad 0]
    else
      [ELoad 0; ELoad 0;
       EStderr (unknown_command_line
                  (uint32 (char_to_int char_signed (byte_at buf 0))))]
  else [].

(** The events of a pixel write. *)
Definition pixel_events (d : t) (strip pixel : Z) (col : PixelColor)
  : list Event :=
  if strip <? num_strips_ d then
    [ESetPixel8 (strip_handle d strip) pixel (red col) (green col) (blue col)]
  else [].

(** The events of any call. *)
Definition call_events (d : t) (c : Call) : list Event :=
  match c with
  | CallHandlePusherCommand buf size => command_events d buf size
  | CallSetPixel strip pixel col => pixel_events d strip pixel col
  | CallFlushFrame => [ESendBuffers (spi_ d)]
  end.

(** The destructor: [delete strips_[strip]] for every strip, then
    [delete [] strips_], then [delete spi_]. *)
Definition delete (d : t) : SE (list Free) unit :=
  for_int 0 (Z.to_nat (num_strips_ d)) (fun strip =>
    match nth_error (strips_ d) (Z.to_nat strip) with
    | Some h => free (FreeStrip h)
    | None => undefined
    end) ;;
  free FreeStripArray ;;
  free (FreeMultiSPI (spi_ d)).

End Members.

End APA102SpixelsDevice.

(** ** class LPD6803SpixelsDevice *)

Module LPD6803SpixelsDevice.

Definition kLPD6308ClockMhz : Z := 4.

Record t : Type := mk {
  num_strips_ : Z;
  strip_len_ : Z;
  strips_ : list Handle;
  spi_ : Handle
}.

Section Members.
Context {env : Env}.

Fixpoint create_strips (spi : Handle) (strip_len : Z) (lo : Z) (count : nat)
  : SE World (list Handle) :=
  match count with
  | O => ret []
  | S count' =>
      h <- CreateLPD6803Strip spi (SPIPinForConnector (lo + 1)) strip_len ;;
      hs <- create_strips spi strip_len (lo + 1) count' ;;
      ret (h :: hs)
  end.

Definition new (num_strips strip_len : Z) : SE World t :=
  if num_strips <? 0 then undefined
  else
    spi <- CreateDirectMultiSPI kLPD6308ClockMhz ;;
    strips <- create_strips spi strip_len 0 (Z.to_nat num_strips) ;;
    ret (mk num_strips strip_len strips spi).

Definition strips_at (i : Z) : SE (Object t) Handle :=
  fun o => match nth_error (strips_ (this o)) (Z.to_nat i) with
           | Some h => Some (h, o)
           | None => None
           end.

Definition num_strips : SE (Object t) Z := member num_strips_.

Definition num_pixel_per_strip : SE (Object t) Z := member strip_len_.

(** The class declares no [HandlePusherCommand]: the member of
    [pp::OutputDevice] is inherited. *)
Definition HandlePusherCommand (buf : list byte) (size : Z)
  : SE (Object t) unit :=
  extern (emit_all (OutputDevice_HandlePusherCommand buf size)).

Definition SetPixel (strip pixel : Z) (col : PixelColor)
  : SE (Object t) unit :=
  n <- member num_strips_ ;;
  if strip <? uint32 n then
    h <- strips_at strip ;;
    extern (SetPixel8 h pixel (red col) (green col) (blue col))
  else ret tt.

Definition FlushFrame : SE (Object t) unit :=
  spi <- member spi_ ;;
  extern (SendBuffers spi).

#[global] Instance device : OutputDevice t := {
  num_strips := num_strips;
  num_pixel_per_strip := num_pixel_per_strip;
  HandlePusherCommand := HandlePusherCommand;
  SetPixel := SetPixel;
  FlushFrame := FlushFrame
}.

Definition strip_handle (d : t) (k : Z) : Handle :=
  nth (Z.to_nat k) (strips_ d) O.

(** The events of a pixel write. *)
Definition pixel_events (d : t) (strip pixel : Z) (col : PixelColor)
  : list Event :=
  if strip <? num_strips_ d then
    [ESetPixel8 (strip_handle d strip) pixel (red col) (green col) (blue col)]
  else [].

(** The events of any call. *)
Definition call_events (d : t) (c : Call) : list Event :=
  match c with
  | CallHandlePusherCommand buf size => OutputDevice_HandlePusherCommand buf size
  | CallSetPixel strip pixel col => pixel_events d strip pixel col
  | CallFlushFrame => [ESendBuffers (spi_ d)]
  end.

(** The destructor, as in the other class. *)
Definition delete (d : t) : SE (list Free) unit :=
  for_int 0 (Z.to_nat (num_strips_ d)) (fun strip =>
    match nth_error (strips_ d) (Z.to_nat strip) with
    | Some h => free (FreeStrip h)
    | None => undefined
    end) ;;
  free FreeStripArray ;;
  free (FreeMultiSPI (spi_ d)).

(** What the constructor establishes. *)
Definition wf (d : t) : Prop :=
  0 <= num_strips_ d < 2 ^ 31
  /\ List.length (strips_ d) = Z.to_nat (num_strips_ d)
  /\ NoDup (strips_ d).

End Members.

End LPD6803SpixelsDevice.

Module A := APA102SpixelsDevice.
Module L := LPD6803SpixelsDevice.

(** The scale computed from the 16-bit value [v] denotes [(v + 1) / 65536]. *)
Definition scale_check (v : Z) : bool :=
  float_denotes_b (A.scale_of (v + 1)) ((v + 1) # 65536).

(** The float [2^-16] = 2^23 * 2^-39. *)
Definition f1_65536 : float := S754_finite false 8388608 (-39).

(** ** What stays the same *)

(** No event of a list is a call into spixels. *)
Definition quiet (es : list Event) : bool :=
  forallb (fun e => negb (is_driver_call e)) es.

(** Two logs tell the strips and the bus the same: the same calls into
    spixels, hence the same scale for every strip, the same colour for every
    pixel, and the same transmissions. *)
Definition same_strip_state (l l' : list Event) : Prop :=
  driver_calls l' = driver_calls l
  /\ (forall h, brightness l' h = brightness l h)
  /\ (forall h p, buffered_pixel l' h p = buffered_pixel l h p)
  /\ transmissions l' = transmissions l.

(** ** Kinds of events *)

(** The three calls a device makes on its strips and its bus once built. *)
Definition is_method_call (e : Event) : bool :=
  match e with
  | ESetBrightnessScale _ _ | ESetPixel8 _ _ _ _ _ | ESendBuffers _ => true
  | _ => false
  end.

Definition method_calls (l : list Event) : list Event := filter is_method_call l.

(** The events [APA102SpixelsDevice::HandlePusherCommand] can append. *)
Definition is_command_event (e : Event) : bool :=
  match e with
  | ELoad _ | EStderr _ | ESetBrightnessScale _ _ => true
  | _ => false
  end.

(** The bus controllers created, in order. *)
Definition bus_controller_of (e : Event) : list Handle :=
  match e with
  | ECreateDirectMultiSPI _ spi => [spi]
  | _ => []
  end.

Definition bus_controllers (l : list Event) : list Handle :=
  flat_map bus_controller_of l.

(** The method calls of a device, from its construction through a sequence
    of calls of the server. *)
Definition calls_after {D : Type} {dev : OutputDevice D}
  (constructed : option (D * World)) (cs : list Call) : option (list Event) :=
  match constructed with
  | Some (d, w) =>
      match run cs (mkObject d w) with
      | Some (_, o) => Some (method_calls (log (world o)))
      | None => None
      end
  | None => None
  end.

(** The two devices hold the same data members. *)
Definition same_members (a : A.t) (l : L.t) : Prop :=
  A.num_strips_ a = L.num_strips_ l
  /\ A.strip_len_ a = L.strip_len_ l
  /\ A.strips_ a = L.strips_ l
  /\ A.spi_ a = L.spi_ l.

(** ** A rig to run the code on *)

(** Modelled from the spec: the header with the two enum constants is not in
    [src/]; the scenario of the spec sends GlobalBrightness under tag 0x01
    and StripBrightness under tag 0x02.  Plain [char] is unsigned, as on the
    Raspberry Pi; the base class handles no command. *)
Definition rpi_env : Env :=
  mkEnv false 1 2 (fun connector => connector) (fun _ _ => []).

(** The same with a signed plain [char]. *)
Definition signed_char_env : Env :=
  mkEnv true 1 2 (fun connector => connector) (fun _ _ => []).

(** A device as the constructor builds it in an empty world, without the
    events of its construction. *)
Definition rig (num_strips strip_len : Z) : Object A.t :=
  mkObject (A.mk num_strips strip_len (seq 1 (Z.to_nat num_strips)) O)
           (mkWorld (S (Z.to_nat num_strips)) []).

(** GlobalBrightness 0xFFFF and StripBrightness of strip 1 to 0x0000, the
    commands of the spec's scenario. *)
Definition global_full : list byte := [Byte.x01; Byte.xff; Byte.xff].
Definition strip1_dark : list byte := [Byte.x02; Byte.x01; Byte.x00; Byte.x00].

(** StripBrightness of strip 200 to 0xFFFF. *)
Definition strip200_full : list byte := [Byte.x02; Byte.xc8; Byte.xff; Byte.xff].

(** StripBrightness for a strip the scenario's rig does not have, a
    GlobalBrightness command cut short, and a command of unknown tag 7. *)
Definition strip9_full : list byte := [Byte.x02; Byte.x09; Byte.xff; Byte.xff].
Definition global_short : list byte := [Byte.x01; Byte.xff].
Definition unknown7 : list byte := [Byte.x07].

Definition red_pixel : PixelColor := mkPixelColor 255 0 0.

(** One frame: a pixel, a command, a flush. *)
Definition one_frame : list Call :=
  [CallSetPixel 1 2 red_pixel; CallHandlePusherCommand global_full 3;
   CallFlushFrame].

Definition empty_world : World := mkWorld O [].

(** ** usage and main

    [getopt], [atoi], [sscanf], [getuid] and the PixelPusher server are not
    of this file.  [main] is given the options as [getopt] returns them, one
    after the other, each with its [optarg]; the uid; and whether
    [pp::StartPixelPusherServer] returns true.  The log holds what [main]
    itself prints and calls. *)

Definition kMaxUDPPacketSize : Z := 65507.
Definition kDefaultUDPPacketSize : Z := 1460.

(** The fields of [pp::PPOptions] that [main] assigns. *)
Record PPOptions : Type := mkPPOptions {
  network_interface : string;
  udp_packet_size : Z;
  group : Z;
  controller : Z;
  artnet_universe : Z;
  artnet_channel : Z
}.

(** What [main] takes from libc and from [pp-server.h]. *)
Class Host : Type := mkHost {
  atoi : string -> Z;
  (** [sscanf(s, "%d,%d", ...)]: the two integers when it returns 2 *)
  sscanf_d_d : string -> option (Z * Z);
  (** a default-constructed [pp::PPOptions] *)
  PPOptions_default : PPOptions
}.

(** The process: the world, and what has been deleted. *)
Record Process : Type := mkProcess {
  proc_world : World;
  proc_freed : list Free
}.

Definition in_world {T : Type} (m : SE World T) : SE Process T :=
  fun p => match m (proc_world p) with
           | Some (a, w) => Some (a, mkProcess w (proc_freed p))
           | None => None
           end.

Definition in_heap {T : Type} (m : SE (list Free) T) : SE Process T :=
  fun p => match m (proc_freed p) with
           | Some (a, f) => Some (a, mkProcess (proc_world p) f)
           | None => None
           end.

Definition tab : string := String (ascii_of_nat 9) EmptyString.

(** [%d] *)
Definition decimal (z : Z) : string := NilZero.string_of_int (Z.to_int z).

Module Main.

(** The locals of [main] the option loop assigns. *)
Record Locals : Type := mkLocals {
  pp_options : PPOptions;
  num_strips : Z;
  strip_len : Z
}.

(** The option loop goes on, or [main] returns. *)
Inductive Parsed : Type :=
| Continue (l : Locals)
| Return (code : Z).

(** [main] returns, or sleeps in [for(;;) sleep(INT_MAX)] with its device and
    the server's options. *)
Inductive Outcome : Type :=
| Exited (code : Z)
| Serving (pixel_strips : A.t) (options : PPOptions).

Definition usage_options : string :=
  ("Options:" ++ newline
   ++ tab ++ "-S <strips>   : Number of connected LED strips (default: 16)"
   ++ newline
   ++ tab ++ "-L <len>      : Length of LED strips (default: 480)" ++ newline
   ++ tab ++ "-i <iface>    : network interface, such as eth0, wlan0. "
   ++ "Default eth0" ++ newline
   ++ tab ++ "-G <group>    : PixelPusher group (default: 0)" ++ newline
   ++ tab ++ "-C <controller> : PixelPusher controller (default: 0)" ++ newline
   ++ tab
   ++ "-a <artnet-universe,artnet-channel>: if used with artnet. Default 0,0"
   ++ newline
   ++ tab ++ "-u <udp-size> : Max UDP data/packet (default "
   ++ decimal kDefaultUDPPacketSize ++ ")" ++ newline
   ++ tab
   ++ "                Best use the maximum that works with your network (up to "
   ++ decimal kMaxUDPPacketSize ++ ")." ++ newline)%string.

Definition usage (progname : string) : SE World Z :=
  emit (EStderr ("usage: " ++ progname ++ " <options>" ++ newline)%string) ;;
  emit (EStderr usage_options) ;;
  ret 1.

Definition artnet_error : string :=
  ("Artnet parameters must be <universe>,<channel>" ++ newline)%string.

Definition root_error (progname : string) : string :=
  ("Must run as root to be able to access /dev/mem" ++ newline
   ++ "Prepend 'sudo' to the command:" ++ newline
   ++ tab ++ "sudo " ++ progname ++ " ..." ++ newline)%string.

Definition with_options (f : PPOptions -> PPOptions) (l : Locals) : Locals :=
  mkLocals (f (pp_options l)) (num_strips l) (strip_len l).

Section Main.
Context {env : Env} {host : Host}.

(** The locals before the option loop. *)
Definition initial : Locals :=
  mkLocals
    (mkPPOptions "eth0"
                 (udp_packet_size PPOptions_default)
                 (group PPOptions_default)
                 (controller PPOptions_default)
                 (-1) (-1))
    8 480.

(** The body of the loop: the [switch] on what [getopt] returned. *)
Definition option_case (progname : string) (opt : ascii) (optarg : string)
  (l : Locals) : SE World Parsed :=
  if (opt =? "S")%char then
    ret (Continue (mkLocals (pp_options l) (atoi optarg) (strip_len l)))
  else if (opt =? "L")%char then
    ret (Continue (mkLocals (pp_options l) (num_strips l) (atoi optarg)))
  else if (opt =? "i")%char then
    ret (Continue (with_options (fun o =>
      mkPPOptions optarg (udp_packet_size o) (group o) (controller o)
                  (artnet_universe o) (artnet_channel o)) l))
  else if (opt =? "u")%char then
    ret (Continue (with_options (fun o =>
      mkPPOptions (network_interface o) (atoi optarg) (group o) (controller o)
                  (artnet_universe o) (artnet_channel o)) l))
  else if (opt =? "G")%char then
    ret (Continue (with_options (fun o =>
      mkPPOptions (network_interface o) (udp_packet_size o) (atoi optarg)
                  (controller o) (artnet_universe o) (artnet_channel o)) l))
  else if (opt =? "C")%char then
    ret (Continue (with_options (fun o =>
      mkPPOptions (network_interface o) (udp_packet_size o) (group o)
                  (atoi optarg) (artnet_universe o) (artnet_channel o)) l))
  else if (opt =? "a")%char then
    match sscanf_d_d optarg with
    | Some (universe, channel) =>
        ret (Continue (with_options (fun o =>
          mkPPOptions (network_interface o) (udp_packet_size o) (group o)
                      (controller o) universe channel) l))
    | None => emit (EStderr artnet_error) ;; ret (Return 1)
    end
  else
    code <- usage progname ;; ret (Return code).

(** [while ((opt = getopt(...)) != -1)] over the options [getopt] returns. *)
Fixpoint parse_options (progname : string) (opts : list (ascii * string))
  (l : Locals) : SE World Parsed :=
  match opts with
  | [] => ret (Continue l)
  | (opt, optarg) :: rest =>
      r <- option_case progname opt optarg l ;;
      match r with
      | Continue l' => parse_options progname rest l'
      | Return code => ret (Return code)
      end
  end.

Definition main (progname : string) (opts : list (ascii * string)) (uid : Z)
  (server_started : bool) : SE Process Outcome :=
  r <- in_world (parse_options progname opts initial) ;;
  match r with
  | Return code => ret (Exited code)
  | Continue l =>
      if negb (uid =? 0) then
        in_world (emit (EStderr (root_error progname))) ;; ret (Exited 1)
      else
        pixel_strips <- in_world (A.new (num_strips l) (strip_len l)) ;;
        if negb server_started then
          in_heap (A.delete pixel_strips) ;; ret (Exited 1)
        else ret (Serving pixel_strips (pp_options l))
  end.

End Main.

End Main.

(** ** Observations for the rest of the file *)

(** The handles of the objects created. *)
Definition created_of (e : Event) : list Handle :=
  match e with
  | ECreateDirectMultiSPI _ spi => [spi]
  | ECreateStrip _ _ _ _ strip => [strip]
  | _ => []
  end.

Definition created (l : list Event) : list Handle := flat_map created_of l.

(** The handles of the objects deleted. *)
Definition freed_of (f : Free) : list Handle :=
  match f with
  | FreeStrip h | FreeMultiSPI h => [h]
  | FreeStripArray => []
  end.

Definition freed (fs : list Free) : list Handle := flat_map freed_of fs.

(** A call into spixels is on an object of the device: a strip of
    [strips_], or the bus [spi_]. *)
Definition on_own_object (d : A.t) (e : Event) : Prop :=
  match e with
  | ESetBrightnessScale h _ | ESetPixel8 h _ _ _ _ => In h (A.strips_ d)
  | ESendBuffers spi => spi = A.spi_ d
  | ECreateDirectMultiSPI _ _ | ECreateStrip _ _ _ _ _ => False
  | ELoad _ | EStderr _ => True
  end.

(** How many of the calls are [FlushFrame]. *)
Definition is_flush (c : Call) : bool :=
  match c with
  | CallFlushFrame => true
  | _ => false
  end.

Definition flushes (cs : list Call) : nat := List.length (filter is_flush cs).

(** The [optarg] of the last occurrence of an option. *)
Fixpoint last_arg (opt : ascii) (opts : list (ascii * string))
  : option string :=
  match opts with
  | [] => None
  | (c, arg) :: rest =>
      match last_arg opt rest with
      | Some a => Some a
      | None => if (c =? opt)%char then Some arg else None
      end
  end.

(** The options the [switch] of [main] has a case for. *)
Definition known_option (opt : ascii) : bool :=
  existsb (Ascii.eqb opt) ["S"; "L"; "i"; "u"; "G"; "C"; "a"]%char.

(** A host for running [main]: [atoi] and [sscanf] on the few strings used
    below, and for a default [PPOptions] the defaults the usage text names
    (1460 bytes per packet, group 0, controller 0). *)
Definition example_host : Host :=
  mkHost (fun s => if (s =? "16")%string then 16
                   else if (s =? "4")%string then 4
                   else if (s =? "-3")%string then -3
                   else if (s =? "100")%string then 100
                   else 0)
         (fun s => if (s =? "1,2")%string then Some (1, 2) else None)
         (mkPPOptions "" kDefaultUDPPacketSize 0 0 0 0).

Definition empty_process : Process := mkProcess empty_world [].

(** The world after lines were written to stderr. *)
Definition says (w : World) (lines : list string) : World :=
  mkWorld (next_handle w) (log w ++ map EStderr lines).

(** The LPD6803 device the constructor builds in an empty world, and a
    StripBrightness command with a fifth byte. *)
Definition lpd_rig (num_strips strip_len : Z) : Object L.t :=
  mkObject (L.mk num_strips strip_len (seq 1 (Z.to_nat num_strips)) O)
           (mkWorld (S (Z.to_nat num_strips)) []).

Definition strip1_dark_padded : list byte :=
  [Byte.x02; Byte.x01; Byte.x00; Byte.x00; Byte.x07].

(** * Properties *)

(** ** Bytes and integers *)

Lemma u8_range (b : byte) : 0 <= u8 b <= 255.
Proof.
  unfold u8. pose proof (Byte.to_N_bounded b). lia.
Qed.

Lemma uint32_small (z : Z) : 0 <= z < 2 ^ 32 -> uint32 z = z.
Proof.
  intros H. unfold uint32. apply Z.mod_small. exact H.
Qed.

(** A byte read as plain [char] and converted to [uint32_t] is the byte's
    value, unless plain [char] is signed and the byte is 128 or more: then
    it is sign-extended. *)
Lemma uint32_char_to_int (signed : bool) (b : byte) :
  uint32 (char_to_int signed b)
  = if signed && (128 <=? u8 b) then u8 b + (2 ^ 32 - 256) else u8 b.
Proof.
  pose proof (u8_range b) as Hb. unfold char_to_int.
  destruct (signed && (128 <=? u8 b)) eqn:E.
  - apply andb_prop in E. destruct E as [_ E]. apply Z.leb_le in E.
    unfold uint32.
    replace (u8 b - 256) with (u8 b + (2 ^ 32 - 256) + (-1) * 2 ^ 32) by lia.
    rewrite Z.mod_add by lia. apply Z.mod_small. lia.
  - apply uint32_small. lia.
Qed.

Lemma nth_error_byte_at (buf : list byte) (off : Z) :
  0 <= off < Z.of_nat (List.length buf) ->
  nth_error buf (Z.to_nat off) = Some (byte_at buf off).
Proof.
  intros H. unfold byte_at. apply nth_error_nth'. lia.
Qed.

(** ** The monad and the log *)

Lemma logged_nil {D : Type} (o : Object D) : logged o [] = o.
Proof.
  destruct o as [d [n l]]. unfold logged. simpl. rewrite app_nil_r. reflexivity.
Qed.

Lemma logged_app {D : Type} (o : Object D) (es es' : list Event) :
  logged (logged o es) es' = logged o (es ++ es').
Proof.
  unfold logged. simpl. rewrite app_assoc. reflexivity.
Qed.

Lemma this_logged {D : Type} (o : Object D) (es : list Event) :
  this (logged o es) = this o.
Proof. reflexivity. Qed.

Lemma log_logged {D : Type} (o : Object D) (es : list Event) :
  log (world (logged o es)) = log (world o) ++ es.
Proof. reflexivity. Qed.

Lemma extern_emit {D : Type} (o : Object D) (e : Event) :
  extern (emit e) o = Some (tt, logged o [e]).
Proof. reflexivity. Qed.

Lemma extern_load8 {D : Type} (o : Object D) (buf : list byte) (off : Z) :
  0 <= off < Z.of_nat (List.length buf) ->
  extern (load8 buf off) o = Some (byte_at buf off, logged o [ELoad off]).
Proof.
  intros H. unfold extern, load8. rewrite (nth_error_byte_at buf off H).
  reflexivity.
Qed.

Lemma extern_load16 {D : Type} (o : Object D) (buf : list byte) (off : Z) :
  0 <= off -> off + 1 < Z.of_nat (List.length buf) ->
  extern (load16 buf off) o
  = Some (u8 (byte_at buf off) + 256 * u8 (byte_at buf (off + 1)),
          logged o [ELoad off; ELoad (off + 1)]).
Proof.
  intros H0 H1. unfold extern, load16, bind, load8.
  rewrite (nth_error_byte_at buf off) by lia.
  rewrite (nth_error_byte_at buf (off + 1)) by lia.
  unfold emit, ret, logged. simpl. rewrite <- app_assoc. reflexivity.
Qed.

(** ** Observations of a log *)

Lemma brightness_app (l es : list Event) (h : Handle) :
  brightness (l ++ es) h = fold_left (brightness_step h) es (brightness l h).
Proof. unfold brightness. apply fold_left_app. Qed.

Lemma buffered_pixel_app (l es : list Event) (h : Handle) (p : Z) :
  buffered_pixel (l ++ es) h p
  = fold_left (pixel_step h p) es (buffered_pixel l h p).
Proof. unfold buffered_pixel. apply fold_left_app. Qed.

(** Events that are no [SetBrightnessScale] leave every scale as it was. *)
Lemma brightness_frame (es : list Event) (h : Handle) (acc : option float) :
  Forall (fun e => is_brightness_call e = false) es ->
  fold_left (brightness_step h) es acc = acc.
Proof.
  intros H. revert acc. induction H as [|e es He _ IH]; intros acc.
  - reflexivity.
  - simpl. rewrite IH. destruct e; simpl in *; try reflexivity. discriminate.
Qed.

(** Setting one scale on a list of strips. *)
Lemma brightness_set_all (hs : list Handle) (s : float) (h : Handle)
  (acc : option float) :
  fold_left (brightness_step h) (map (fun h' => ESetBrightnessScale h' s) hs) acc
  = if existsb (fun h' => Nat.eqb h' h) hs then Some s else acc.
Proof.
  revert acc. induction hs as [|h0 hs IH]; intros acc.
  - reflexivity.
  - simpl. rewrite IH. destruct (Nat.eqb h0 h); simpl.
    + destruct (existsb (fun h' => Nat.eqb h' h) hs); reflexivity.
    + reflexivity.
Qed.

Lemma transmissions_from_app (seen a b : list Event) :
  transmissions_from seen (a ++ b)
  = transmissions_from seen a ++ transmissions_from (seen ++ a) b.
Proof.
  revert seen. induction a as [|e a IH]; intros seen.
  - simpl. rewrite app_nil_r. reflexivity.
  - simpl. rewrite IH. rewrite <- !app_assoc. reflexivity.
Qed.

Lemma transmissions_app (l es : list Event) :
  transmissions (l ++ es) = transmissions l ++ transmissions_from l es.
Proof. unfold transmissions. apply transmissions_from_app. Qed.

(** Events that are no [SendBuffers] transmit nothing. *)
Lemma transmissions_from_quiet (seen es : list Event) :
  Forall (fun e => match e with ESendBuffers _ => False | _ => True end) es ->
  transmissions_from seen es = [].
Proof.
  intros H. revert seen. induction H as [|e es He _ IH]; intros seen.
  - reflexivity.
  - simpl. rewrite IH. destruct e; try reflexivity. contradiction.
Qed.

Lemma bind_some {S A B : Type} (m : SE S A) (k : A -> SE S B) (s s' : S)
  (a : A) :
  m s = Some (a, s') -> bind m k s = k a s'.
Proof. intros H. unfold bind. rewrite H. reflexivity. Qed.

Lemma bind_member {D A B : Type} (f : D -> A) (k : A -> SE (Object D) B)
  (o : Object D) :
  bind (member f) k o = k (f (this o)) o.
Proof. reflexivity. Qed.

Ltac step_with lem := erewrite bind_some by (apply lem; lia); cbv beta zeta.

Lemma skipn_nth_error {T : Type} (l : list T) (i : nat) (x : T) :
  nth_error l i = Some x -> skipn i l = x :: skipn (Datatypes.S i) l.
Proof.
  revert l. induction i as [|i IH]; intros [|y l] H; simpl in *; try discriminate.
  - injection H as ->. reflexivity.
  - apply IH. exact H.
Qed.

Lemma all_below_spec (p : positive) (f : Z -> bool) (base : Z) :
  all_below p f base = true ->
  forall z, base <= z < base + Z.pos p -> f z = true.
Proof.
  revert base. induction p as [q IH|q IH|]; simpl; intros base H z Hz.
  - apply andb_prop in H. destruct H as [H H3].
    apply andb_prop in H. destruct H as [H1 H2].
    destruct (Z_lt_dec z (base + Z.pos q)) as [Hlt|Hge].
    + apply (IH base H1). lia.
    + destruct (Z_lt_dec z (base + Z.pos q + Z.pos q)) as [Hlt'|Hge'].
      * apply (IH _ H2). lia.
      * replace z with (base + Z.pos q + Z.pos q) by lia. exact H3.
  - apply andb_prop in H. destruct H as [H1 H2].
    destruct (Z_lt_dec z (base + Z.pos q)) as [Hlt|Hge].
    + apply (IH base H1). lia.
    + apply (IH _ H2). lia.
  - replace z with base by lia. exact H.
Qed.

(** ** The brightness scale *)

Lemma u16_at_range (buf : list byte) (off : Z) : 0 <= A.u16_at buf off < 65536.
Proof.
  unfold A.u16_at.
  pose proof (u8_range (byte_at buf off)).
  pose proof (u8_range (byte_at buf (off + 1))). lia.
Qed.

Lemma brightnessScale16_no_wrap (v : Z) :
  0 <= v < 65536 -> uint32 (uint32 v + 1) = v + 1.
Proof.
  intros H. rewrite (uint32_small v) by lia. apply uint32_small. lia.
Qed.

(** Every 16-bit value, one by one: the conversion and the division by
    [65536.0f] are exact. *)
Lemma scale_check_all : all_below 65536 scale_check 0 = true.
Proof. vm_compute. reflexivity. Qed.

Lemma scale_of_exact (v : Z) :
  0 <= v < 65536 -> float_denotes (A.scale_of (v + 1)) ((v + 1) # 65536).
Proof.
  intros H.
  pose proof (all_below_spec _ _ _ scale_check_all v ltac:(lia)) as Hc.
  unfold scale_check, float_denotes_b in Hc. unfold float_denotes.
  destruct (float_value (A.scale_of (v + 1))) as [q|]; [|discriminate].
  apply Qeq_bool_iff. exact Hc.
Qed.

(** ** The member functions, as events *)

Lemma brightness_loop (s : float) (n lo : nat) (o : Object A.t) :
  (lo + n <= List.length (A.strips_ (this o)))%nat ->
  for_int (Z.of_nat lo) n
    (fun strip => h <- A.strips_at strip ;; extern (SetBrightnessScale h s)) o
  = Some (tt, logged o (map (fun h => ESetBrightnessScale h s)
                            (firstn n (skipn lo (A.strips_ (this o)))))).
Proof.
  revert lo o. induction n as [|n IH]; intros lo o H.
  - simpl. unfold ret. rewrite logged_nil. reflexivity.
  - destruct (nth_error (A.strips_ (this o)) lo) as [h|] eqn:E.
    2:{ apply nth_error_None in E. lia. }
    simpl for_int.
    assert (Hbody : (h <- A.strips_at (Z.of_nat lo) ;;
                     extern (SetBrightnessScale h s)) o
                    = Some (tt, logged o [ESetBrightnessScale h s])).
    { unfold bind, A.strips_at. rewrite Nat2Z.id, E. reflexivity. }
    rewrite (bind_some _ _ _ _ _ Hbody).
    replace (Z.of_nat lo + 1) with (Z.of_nat (Datatypes.S lo)) by lia.
    rewrite IH by (rewrite this_logged; lia).
    rewrite logged_app, this_logged, (skipn_nth_error _ _ _ E).
    reflexivity.
Qed.

Section Execution.
Context {env : Env}.

Lemma strips_at_ok (o : Object A.t) (k : Z) :
  0 <= k < Z.of_nat (List.length (A.strips_ (this o))) ->
  A.strips_at k o = Some (A.strip_handle (this o) k, o).
Proof.
  intros H. unfold A.strips_at, A.strip_handle.
  rewrite nth_error_nth' with (d := O) by (unfold Handle in *; lia).
  reflexivity.
Qed.

(** Symbolic execution of [HandlePusherCommand]: on an object the
    constructor built and a buffer of [size] bytes it returns, and appends
    the events of the branch taken. *)
Lemma HandlePusherCommand_events (o : Object A.t) (buf : list byte) (size : Z) :
  A.wf (this o) ->
  0 <= size <= Z.of_nat (List.length buf) ->
  A.HandlePusherCommand buf size o
  = Some (tt, logged o (A.command_events (this o) buf size)).
Proof.
  intros (Hn & Hlen & _) Hsize.
  unfold A.HandlePusherCommand, A.command_events.
  destruct (1 <=? size) eqn:E1.
  2:{ unfold ret. rewrite logged_nil. reflexivity. }
  apply Z.leb_le in E1.
  step_with @extern_load8.
  destruct (char_to_int char_signed (byte_at buf 0)
            =? PPPusherCommandGlobalBrightness) eqn:EG.
  - destruct (3 <=? size) eqn:E3.
    2:{ reflexivity. }
    apply Z.leb_le in E3.
    step_with @extern_load16. rewrite bind_member.
    change (for_int 0) with (for_int (S := Object A.t) (Z.of_nat 0)).
    rewrite brightness_loop by (rewrite !this_logged; simpl; lia).
    rewrite !this_logged, !logged_app. simpl skipn.
    rewrite <- Hlen, firstn_all.
    change (u8 (byte_at buf 1) + 256 * u8 (byte_at buf (1 + 1)))
      with (A.u16_at buf 1).
    rewrite brightnessScale16_no_wrap by apply u16_at_range.
    reflexivity.
  - destruct (char_to_int char_signed (byte_at buf 0)
              =? PPPusherCommandStripBrightness) eqn:ES.
    + destruct (4 <=? size) eqn:E4.
      2:{ reflexivity. }
      apply Z.leb_le in E4.
      step_with @extern_load8. rewrite bind_member.
      rewrite !this_logged, (uint32_small (A.num_strips_ (this o))) by lia.
      destruct (uint32 (char_to_int char_signed (byte_at buf 1))
                <? A.num_strips_ (this o)) eqn:Ek.
      2:{ unfold ret. rewrite logged_app. reflexivity. }
      apply Z.ltb_lt in Ek.
      assert (0 <= uint32 (char_to_int char_signed (byte_at buf 1)))
        by (unfold uint32; apply Z.mod_pos_bound; lia).
      step_with @extern_load16.
      erewrite bind_some
        by (apply strips_at_ok; rewrite !this_logged; lia).
      rewrite !this_logged. unfold SetBrightnessScale. rewrite extern_emit.
      rewrite !logged_app.
      change (u8 (byte_at buf 2) + 256 * u8 (byte_at buf (2 + 1)))
        with (A.u16_at buf 2).
      rewrite brightnessScale16_no_wrap by apply u16_at_range.
      reflexivity.
    + step_with @extern_load8. rewrite extern_emit, !logged_app. reflexivity.
Qed.

Lemma SetPixel_events (o : Object A.t) (strip pixel : Z) (col : PixelColor) :
  A.wf (this o) ->
  0 <= strip < 2 ^ 32 ->
  A.SetPixel strip pixel col o
  = Some (tt, logged o (A.pixel_events (this o) strip pixel col)).
Proof.
  intros (Hn & Hlen & _) Hstrip.
  unfold A.SetPixel, A.pixel_events. rewrite bind_member.
  rewrite (uint32_small (A.num_strips_ (this o))) by lia.
  destruct (strip <? A.num_strips_ (this o)) eqn:Ek.
  - apply Z.ltb_lt in Ek.
    erewrite bind_some by (apply strips_at_ok; lia).
    reflexivity.
  - unfold ret. rewrite logged_nil. reflexivity.
Qed.

Lemma FlushFrame_events (o : Object A.t) :
  A.FlushFrame o = Some (tt, logged o [ESendBuffers (A.spi_ (this o))]).
Proof. reflexivity. Qed.

Lemma call_events_ok (o : Object A.t) (c : Call) :
  A.wf (this o) -> call_ok c ->
  call c o = Some (tt, logged o (A.call_events (this o) c)).
Proof.
  intros Hwf Hc. destruct c as [buf size|strip pixel col|]; simpl in *.
  - apply HandlePusherCommand_events; assumption.
  - apply SetPixel_events; [assumption | lia].
  - apply FlushFrame_events.
Qed.

(** A sequence of calls returns, leaves the data members as they were, and
    appends the events of each call in turn. *)
Lemma run_events (cs : list Call) (o : Object A.t) :
  A.wf (this o) -> Forall call_ok cs ->
  run cs o = Some (tt, logged o (flat_map (A.call_events (this o)) cs)).
Proof.
  intros Hwf Hcs. revert o Hwf.
  induction Hcs as [|c cs Hc _ IH]; intros o Hwf.
  - simpl. unfold ret. rewrite logged_nil. reflexivity.
  - simpl run. rewrite (bind_some _ _ _ _ _ (call_events_ok o c Hwf Hc)).
    rewrite IH by (rewrite this_logged; exact Hwf).
    rewrite logged_app, this_logged. reflexivity.
Qed.

End Execution.

(** ** The constructor *)

Section Constructor.
Context {env : Env}.

Lemma create_strips_spec (spi : Handle) (strip_len : Z) (count : nat) (lo : Z)
  (w : World) :
  A.create_strips spi strip_len lo count w
  = Some (seq (next_handle w) count,
          mkWorld (next_handle w + count)%nat
            (log w ++ map (fun i => ECreateStrip APA102 spi
                                      (SPIPinForConnector (lo + Z.of_nat i + 1))
                                      strip_len (next_handle w + i)%nat)
                          (seq 0 count))).
Proof.
  revert lo w. induction count as [|count IH]; intros lo w.
  - simpl. unfold ret. rewrite app_nil_r, Nat.add_0_r. destruct w; reflexivity.
  - simpl A.create_strips. unfold bind at 1. unfold CreateAPA102Strip at 1.
    unfold bind at 1, fresh at 1, bind at 1, emit at 1, ret at 1.
    cbv beta iota. simpl next_handle. simpl log.
    unfold bind at 1. rewrite IH. unfold ret. simpl next_handle. simpl log.
    f_equal. f_equal. f_equal.
    + lia.
    + rewrite <- app_assoc. f_equal. simpl. f_equal.
      * rewrite Z.add_0_r, Nat.add_0_r. reflexivity.
      * rewrite <- seq_shift, map_map. apply map_ext. intros i.
        f_equal; [f_equal|]; lia.
Qed.

Lemma new_spec (num_strips strip_len : Z) (w : World) :
  0 <= num_strips ->
  A.new num_strips strip_len w
  = Some (A.mk num_strips strip_len
               (seq (S (next_handle w)) (Z.to_nat num_strips))
               (next_handle w),
          mkWorld (S (next_handle w) + Z.to_nat num_strips)%nat
            (log w
             ++ ECreateDirectMultiSPI A.kAPA102ClockMhz (next_handle w)
             :: map (fun i => ECreateStrip APA102 (next_handle w)
                                (SPIPinForConnector (0 + Z.of_nat i + 1))
                                strip_len (S (next_handle w) + i)%nat)
                    (seq 0 (Z.to_nat num_strips)))).
Proof.
  intros H. unfold A.new.
  replace (num_strips <? 0) with false by (symmetry; apply Z.ltb_ge; lia).
  unfold bind at 1. unfold CreateDirectMultiSPI.
  unfold bind at 1, fresh at 1, bind at 1, emit at 1, ret at 1.
  cbv beta iota. simpl next_handle. simpl log.
  unfold bind at 1. rewrite create_strips_spec. unfold ret.
  simpl next_handle. simpl log. rewrite <- app_assoc. reflexivity.
Qed.

Lemma new_wf (num_strips strip_len : Z) (w w' : World) (d : A.t) :
  0 <= num_strips < 2 ^ 31 ->
  A.new num_strips strip_len w = Some (d, w') ->
  A.wf d.
Proof.
  intros H E. rewrite new_spec in E by lia. injection E as <- _.
  unfold A.wf. simpl. split; [exact H|]. split.
  - apply length_seq.
  - apply seq_NoDup.
Qed.

End Constructor.

(** ** Brightness commands *)

Section Brightness.
Context {env : Env}.

Lemma strip_handle_In (d : A.t) (k : Z) :
  A.wf d -> 0 <= k < A.num_strips_ d -> In (A.strip_handle d k) (A.strips_ d).
Proof.
  intros (Hn & Hlen & _) Hk. unfold A.strip_handle. apply nth_In.
  unfold Handle in *. lia.
Qed.

Lemma strip_handle_inj (d : A.t) (j k : Z) :
  A.wf d -> 0 <= j < A.num_strips_ d -> 0 <= k < A.num_strips_ d ->
  A.strip_handle d j = A.strip_handle d k -> j = k.
Proof.
  intros (Hn & Hlen & Hnd) Hj Hk E. unfold A.strip_handle in E.
  rewrite NoDup_nth in Hnd. unfold Handle in *.
  specialize (Hnd (Z.to_nat j) (Z.to_nat k) ltac:(lia) ltac:(lia) E). lia.
Qed.

(** The index a StripBrightness command carries, as the code reads it. *)
Lemma strip_index_read (b : byte) :
  char_signed = false \/ u8 b < 128 ->
  uint32 (char_to_int char_signed b) = u8 b.
Proof.
  intros H. rewrite uint32_char_to_int. destruct H as [-> | H].
  - reflexivity.
  - replace (128 <=? u8 b) with false by (symmetry; apply Z.leb_gt; lia).
    rewrite andb_false_r. reflexivity.
Qed.

(** The events of a StripBrightness command that addresses a strip of the
    device. *)
Lemma strip_command_events (d : A.t) (buf : list byte) (size : Z) :
  PPPusherCommandGlobalBrightness <> PPPusherCommandStripBrightness ->
  4 <= size ->
  char_to_int char_signed (byte_at buf 0) = PPPusherCommandStripBrightness ->
  char_signed = false \/ u8 (byte_at buf 1) < 128 ->
  u8 (byte_at buf 1) < A.num_strips_ d ->
  A.command_events d buf size
  = [ELoad 0; ELoad 1; ELoad 2; ELoad 3;
     ESetBrightnessScale (A.strip_handle d (u8 (byte_at buf 1)))
                         (A.scale_of (A.u16_at buf 2 + 1))].
Proof.
  intros Hne Hsize Htag Hchar Hk. unfold A.command_events.
  replace (1 <=? size) with true by (symmetry; apply Z.leb_le; lia).
  rewrite Htag.
  replace (PPPusherCommandStripBrightness =? PPPusherCommandGlobalBrightness)
    with false by (symmetry; apply Z.eqb_neq; congruence).
  rewrite Z.eqb_refl.
  replace (4 <=? size) with true by (symmetry; apply Z.leb_le; lia).
  cbv zeta. rewrite (strip_index_read _ Hchar).
  replace (u8 (byte_at buf 1) <? A.num_strips_ d) with true
    by (symmetry; apply Z.ltb_lt; lia).
  reflexivity.
Qed.

(** C1: a GlobalBrightness command of at least 3 bytes sets the brightness
    scale of every strip index [0..num_strips-1] to the float that denotes
    exactly [(v + 1) / 65536], [v] the little-endian 16-bit value of bytes 1
    and 2; for [v = 65535] that float is [1.0f], for [v = 0] it is [2^-16],
    not zero. *)
Theorem global_brightness_sets_every_strip (o : Object A.t) (buf : list byte)
  (size : Z) :
  A.wf (this o) ->
  3 <= size <= Z.of_nat (List.length buf) ->
  char_to_int char_signed (byte_at buf 0) = PPPusherCommandGlobalBrightness ->
  let v := A.u16_at buf 1 in
  exists o',
    A.HandlePusherCommand buf size o = Some (tt, o')
    /\ (forall k, 0 <= k < A.num_strips_ (this o) ->
                  A.strip_brightness o' k = Some (A.scale_of (v + 1)))
    /\ float_denotes (A.scale_of (v + 1)) ((v + 1) # 65536)
    /\ (v = 65535 -> A.scale_of (v + 1) = f1)
    /\ (v = 0 -> A.scale_of (v + 1) = f1_65536).
Proof.
  intros Hwf Hsize Htag v.
  exists (logged o (A.command_events (this o) buf size)).
  split; [apply HandlePusherCommand_events; [exact Hwf | lia]|].
  split; [|split; [apply scale_of_exact, u16_at_range|]].
  - intros k Hk. unfold A.strip_brightness.
    rewrite this_logged, log_logged, brightness_app.
    unfold A.command_events.
    replace (1 <=? size) with true by (symmetry; apply Z.leb_le; lia).
    rewrite Htag, Z.eqb_refl.
    replace (3 <=? size) with true by (symmetry; apply Z.leb_le; lia).
    cbv zeta. rewrite fold_left_app. simpl fold_left at 2.
    rewrite brightness_set_all.
    replace (existsb _ (A.strips_ (this o))) with true; [reflexivity|].
    symmetry. apply existsb_exists.
    exists (A.strip_handle (this o) k). split.
    + apply strip_handle_In; assumption.
    + apply Nat.eqb_refl.
  - split; intros ->; reflexivity.
Qed.

(** X22: where the index byte reads as its value [k] (plain [char]
    unsigned, or [k] below 128), a StripBrightness command of at least 4
    bytes with [k] below [num_strips] sets the scale of strip [k] and leaves
    the last-set scale of every other strip as it was. *)
Theorem strip_brightness_sets_one_strip (o : Object A.t) (buf : list byte)
  (size : Z) :
  A.wf (this o) ->
  PPPusherCommandGlobalBrightness <> PPPusherCommandStripBrightness ->
  4 <= size <= Z.of_nat (List.length buf) ->
  char_to_int char_signed (byte_at buf 0) = PPPusherCommandStripBrightness ->
  let k := u8 (byte_at buf 1) in
  char_signed = false \/ k < 128 ->
  k < A.num_strips_ (this o) ->
  exists o',
    A.HandlePusherCommand buf size o = Some (tt, o')
    /\ A.strip_brightness o' k = Some (A.scale_of (A.u16_at buf 2 + 1))
    /\ (forall j, 0 <= j < A.num_strips_ (this o) -> j <> k ->
                  A.strip_brightness o' j = A.strip_brightness o j).
Proof.
  intros Hwf Hne Hsize Htag k Hchar Hk.
  pose proof (u8_range (byte_at buf 1)) as Hb. fold k in Hb.
  exists (logged o (A.command_events (this o) buf size)).
  split; [apply HandlePusherCommand_events; [exact Hwf | lia]|].
  rewrite (strip_command_events _ _ _ Hne) by (assumption || lia).
  fold k. unfold A.strip_brightness.
  split; [|intros j Hj Hjk]; rewrite this_logged, log_logged, brightness_app;
    simpl.
  - rewrite Nat.eqb_refl. reflexivity.
  - replace (Nat.eqb _ _) with false; [reflexivity|].
    symmetry. apply Nat.eqb_neq. intros E. apply Hjk. symmetry.
    apply (strip_handle_inj (this o)); (assumption || lia).
Qed.

(** X23: where plain [char] is unsigned, for all byte values 0..255, and
    where it is signed, for byte values below 128: the byte [b] at offset 1
    of a StripBrightness command is the 0-based index of the strip
    addressed; with [b] below [num_strips], whatever [num_strips] is, the one
    call the command makes into spixels sets the scale of strip [b]. *)
Theorem strip_index_is_the_byte_value (o : Object A.t) (buf : list byte)
  (size : Z) :
  A.wf (this o) ->
  PPPusherCommandGlobalBrightness <> PPPusherCommandStripBrightness ->
  4 <= size <= Z.of_nat (List.length buf) ->
  char_to_int char_signed (byte_at buf 0) = PPPusherCommandStripBrightness ->
  let b := u8 (byte_at buf 1) in
  char_signed = false \/ b < 128 ->
  b < A.num_strips_ (this o) ->
  exists o',
    A.HandlePusherCommand buf size o = Some (tt, o')
    /\ driver_calls (log (world o'))
       = driver_calls (log (world o))
         ++ [ESetBrightnessScale (A.strip_handle (this o) b)
                                 (A.scale_of (A.u16_at buf 2 + 1))]
    /\ nth_error (A.strips_ (this o)) (Z.to_nat b)
       = Some (A.strip_handle (this o) b).
Proof.
  intros Hwf Hne Hsize Htag b Hchar Hb.
  pose proof (u8_range (byte_at buf 1)) as Hr. fold b in Hr.
  exists (logged o (A.command_events (this o) buf size)).
  split; [apply HandlePusherCommand_events; [exact Hwf | lia]|].
  rewrite (strip_command_events _ _ _ Hne) by (assumption || lia).
  fold b. split.
  - rewrite log_logged. unfold driver_calls. rewrite filter_app. reflexivity.
  - destruct Hwf as (Hn & Hlen & _). unfold A.strip_handle.
    apply nth_error_nth'. unfold Handle in *. lia.
Qed.

End Brightness.

(** ** Commands and pixel writes that change nothing *)

Lemma quiet_Forall (es : list Event) :
  quiet es = true -> Forall (fun e => is_driver_call e = false) es.
Proof.
  unfold quiet. rewrite forallb_forall, Forall_forall. intros H e He.
  specialize (H e He). destruct (is_driver_call e); [discriminate|reflexivity].
Qed.

Lemma driver_calls_quiet (l es : list Event) :
  quiet es = true -> driver_calls (l ++ es) = driver_calls l.
Proof.
  intros H. apply quiet_Forall in H. unfold driver_calls. rewrite filter_app.
  replace (filter is_driver_call es) with (@nil Event).
  - apply app_nil_r.
  - induction H as [|e es He _ IH]; simpl; [reflexivity|].
    rewrite He. exact IH.
Qed.

Lemma same_strip_state_quiet (l es : list Event) :
  quiet es = true -> same_strip_state l (l ++ es).
Proof.
  intros H. split; [apply driver_calls_quiet; exact H|].
  apply quiet_Forall in H. split; [|split].
  - intros h. rewrite brightness_app. apply brightness_frame.
    eapply Forall_impl; [|exact H]. intros [] He; simpl in *; congruence.
  - intros h p. rewrite buffered_pixel_app. generalize (buffered_pixel l h p).
    induction H as [|e es He _ IH]; intros acc; [reflexivity|].
    simpl. rewrite IH. destruct e; simpl in *; congruence.
  - rewrite transmissions_app, transmissions_from_quiet, app_nil_r.
    + reflexivity.
    + eapply Forall_impl; [|exact H]. intros [] He; simpl in *;
        (exact I || discriminate).
Qed.


Section Ignored.
Context {env : Env}.

(** C4: a StripBrightness command of at least 4 bytes whose index byte is
    [num_strips] or more returns without a call into spixels and without a
    line on stderr: no scale, no pixel and no data member changes. *)
Theorem strip_brightness_out_of_range_ignored (o : Object A.t)
  (buf : list byte) (size : Z) :
  A.wf (this o) ->
  PPPusherCommandGlobalBrightness <> PPPusherCommandStripBrightness ->
  4 <= size <= Z.of_nat (List.length buf) ->
  char_to_int char_signed (byte_at buf 0) = PPPusherCommandStripBrightness ->
  A.num_strips_ (this o) <= u8 (byte_at buf 1) ->
  exists o',
    A.HandlePusherCommand buf size o = Some (tt, o')
    /\ this o' = this o
    /\ same_strip_state (log (world o)) (log (world o'))
    /\ stderr (log (world o')) = stderr (log (world o)).
Proof.
  intros Hwf Hne Hsize Htag Hk.
  pose proof (u8_range (byte_at buf 1)) as Hb.
  pose proof Hwf as (Hn & _).
  exists (logged o (A.command_events (this o) buf size)).
  split; [apply HandlePusherCommand_events; [exact Hwf | lia]|].
  assert (E : A.command_events (this o) buf size = [ELoad 0; ELoad 1]).
  { unfold A.command_events.
    replace (1 <=? size) with true by (symmetry; apply Z.leb_le; lia).
    rewrite Htag.
    replace (PPPusherCommandStripBrightness =? PPPusherCommandGlobalBrightness)
      with false by (symmetry; apply Z.eqb_neq; congruence).
    rewrite Z.eqb_refl.
    replace (4 <=? size) with true by (symmetry; apply Z.leb_le; lia).
    cbv zeta. rewrite uint32_char_to_int.
    destruct (char_signed && (128 <=? u8 (byte_at buf 1)));
      match goal with
      | |- (if ?c then _ else _) = _ =>
          replace c with false by (symmetry; apply Z.ltb_ge; lia)
      end; reflexivity. }
  rewrite E, log_logged. split; [reflexivity|]. split.
  - apply same_strip_state_quiet. reflexivity.
  - unfold stderr. rewrite flat_map_app. simpl. apply app_nil_r.
Qed.

(** C6: a command of size 0, a GlobalBrightness command of fewer than 3
    bytes and a StripBrightness command of fewer than 4 bytes return without
    a call into spixels and without a line on stderr, and read no byte at
    offset [size] or beyond. *)
Theorem short_command_is_ignored (o : Object A.t) (buf : list byte)
  (size : Z) :
  A.wf (this o) ->
  PPPusherCommandGlobalBrightness <> PPPusherCommandStripBrightness ->
  0 <= size <= Z.of_nat (List.length buf) ->
  size = 0
  \/ (char_to_int char_signed (byte_at buf 0) = PPPusherCommandGlobalBrightness
      /\ size < 3)
  \/ (char_to_int char_signed (byte_at buf 0) = PPPusherCommandStripBrightness
      /\ size < 4) ->
  exists o' es,
    A.HandlePusherCommand buf size o = Some (tt, o')
    /\ this o' = this o
    /\ log (world o') = log (world o) ++ es
    /\ same_strip_state (log (world o)) (log (world o'))
    /\ stderr es = []
    /\ Forall (fun off => 0 <= off < size) (loads es).
Proof.
  intros Hwf Hne Hsize Hshort.
  exists (logged o (A.command_events (this o) buf size)).
  exists (A.command_events (this o) buf size).
  split; [apply HandlePusherCommand_events; assumption|].
  split; [reflexivity|]. split; [reflexivity|]. rewrite log_logged.
  assert (E : A.command_events (this o) buf size
              = if 1 <=? size then [ELoad 0] else []).
  { unfold A.command_events.
    destruct (1 <=? size) eqn:E1; [|reflexivity]. apply Z.leb_le in E1.
    destruct Hshort as [H0 | [[Htag H3] | [Htag H4]]]; [lia | |].
    - rewrite Htag, Z.eqb_refl.
      replace (3 <=? size) with false by (symmetry; apply Z.leb_gt; lia).
      reflexivity.
    - rewrite Htag.
      replace (PPPusherCommandStripBrightness
               =? PPPusherCommandGlobalBrightness)
        with false by (symmetry; apply Z.eqb_neq; congruence).
      rewrite Z.eqb_refl.
      replace (4 <=? size) with false by (symmetry; apply Z.leb_gt; lia).
      reflexivity. }
  rewrite E. destruct (1 <=? size) eqn:E1.
  - apply Z.leb_le in E1. split; [apply same_strip_state_quiet; reflexivity|].
    split; [reflexivity|]. simpl. constructor; [lia | constructor].
  - split; [apply same_strip_state_quiet; reflexivity|].
    split; [reflexivity | constructor].
Qed.


(** A pixel write on a strip of the device: one [SetPixel8], buffered, not
    transmitted. *)
Lemma SetPixel_on_strip (o : Object A.t) (strip pixel : Z)
  (col : PixelColor) :
  A.wf (this o) ->
  0 <= strip < A.num_strips_ (this o) ->
  exists o',
    A.SetPixel strip pixel col o = Some (tt, o')
    /\ log (world o')
       = log (world o)
         ++ [ESetPixel8 (A.strip_handle (this o) strip) pixel
                        (red col) (green col) (blue col)]
    /\ buffered_pixel (log (world o')) (A.strip_handle (this o) strip) pixel
       = Some col
    /\ transmissions (log (world o')) = transmissions (log (world o)).
Proof.
  intros Hwf Hstrip. pose proof Hwf as (Hn & _).
  exists (logged o (A.pixel_events (this o) strip pixel col)).
  split; [apply SetPixel_events; [assumption | lia]|].
  unfold A.pixel_events.
  replace (strip <? A.num_strips_ (this o)) with true
    by (symmetry; apply Z.ltb_lt; lia).
  rewrite log_logged. split; [reflexivity|]. split.
  - rewrite buffered_pixel_app. simpl. rewrite Nat.eqb_refl, Z.eqb_refl.
    destruct col; reflexivity.
  - rewrite transmissions_app. simpl. apply app_nil_r.
Qed.

(** C5: [SetPixel] on a strip index of [num_strips] or more changes nothing
    at all; on a smaller index it makes exactly one call, [SetPixel8] with
    the pixel index and the three channels, on the strip at that index.  No
    [SendBuffers] is called, and the pixel index is forwarded whatever its
    value. *)
Theorem SetPixel_forwards_or_ignores (o : Object A.t) (strip pixel : Z)
  (col : PixelColor) :
  A.wf (this o) ->
  0 <= strip < 2 ^ 32 ->
  exists o',
    A.SetPixel strip pixel col o = Some (tt, o')
    /\ (A.num_strips_ (this o) <= strip -> o' = o)
    /\ (strip < A.num_strips_ (this o) ->
        this o' = this o
        /\ nth_error (A.strips_ (this o)) (Z.to_nat strip)
           = Some (A.strip_handle (this o) strip)
        /\ log (world o')
           = log (world o)
             ++ [ESetPixel8 (A.strip_handle (this o) strip) pixel
                            (red col) (green col) (blue col)]
        /\ buffered_pixel (log (world o')) (A.strip_handle (this o) strip) pixel
           = Some col
        /\ transmissions (log (world o')) = transmissions (log (world o))).
Proof.
  intros Hwf Hstrip.
  exists (logged o (A.pixel_events (this o) strip pixel col)).
  split; [apply SetPixel_events; assumption|].
  unfold A.pixel_events. split.
  - intros H.
    replace (strip <? A.num_strips_ (this o)) with false
      by (symmetry; apply Z.ltb_ge; lia).
    apply logged_nil.
  - intros H.
    replace (strip <? A.num_strips_ (this o)) with true
      by (symmetry; apply Z.ltb_lt; lia).
    split; [reflexivity|]. split.
    { destruct Hwf as (Hn & Hlen & _). unfold A.strip_handle.
      apply nth_error_nth'. unfold Handle in *. lia. }
    rewrite log_logged. split; [reflexivity|]. split.
    + rewrite buffered_pixel_app. simpl. rewrite Nat.eqb_refl, Z.eqb_refl.
      destruct col; reflexivity.
    + rewrite transmissions_app. simpl. apply app_nil_r.
Qed.

End Ignored.

(** ** Frames *)

Section Frames.
Context {env : Env}.

Lemma command_events_shape (d : A.t) (buf : list byte) (size : Z) :
  Forall (fun e => is_command_event e = true) (A.command_events d buf size).
Proof.
  unfold A.command_events.
  repeat match goal with
         | |- context [if ?c then _ else _] => destruct c
         end;
    cbv zeta;
    repeat match goal with
           | |- context [if ?c then _ else _] => destruct c
           end;
    try (apply Forall_app; split);
    try (apply Forall_map, Forall_forall; intros; reflexivity);
    repeat constructor.
Qed.

Lemma command_events_no_transmit (d : A.t) (buf : list byte) (size : Z)
  (seen : list Event) :
  transmissions_from seen (A.command_events d buf size) = [].
Proof.
  apply transmissions_from_quiet.
  eapply Forall_impl; [|apply command_events_shape].
  intros [] H; simpl in *; (exact I || discriminate).
Qed.

Lemma call_events_transmissions (d : A.t) (c : Call) (seen : list Event) :
  c <> CallFlushFrame ->
  transmissions_from seen (A.call_events d c) = [].
Proof.
  intros Hc. destruct c as [buf size|strip pixel col|]; simpl.
  - apply command_events_no_transmit.
  - unfold A.pixel_events. destruct (strip <? A.num_strips_ d); reflexivity.
  - contradiction.
Qed.

(** C7: [FlushFrame] calls [SendBuffers] on the bus controller, and no other
    member function does.  A pixel written by [SetPixel] is part of no
    transmission until the next [FlushFrame], whose transmission shows it;
    and whatever is called later, the transmissions made so far stay as they
    were. *)
Theorem FlushFrame_is_the_only_transmit (o : Object A.t) :
  A.wf (this o) ->
  (exists o',
      A.FlushFrame o = Some (tt, o')
      /\ log (world o') = log (world o) ++ [ESendBuffers (A.spi_ (this o))]
      /\ transmissions (log (world o'))
         = transmissions (log (world o)) ++ [log (world o)])
  /\ (forall c, call_ok c -> c <> CallFlushFrame ->
        exists o',
          call c o = Some (tt, o')
          /\ transmissions (log (world o')) = transmissions (log (world o)))
  /\ (forall strip pixel col, 0 <= strip < A.num_strips_ (this o) ->
        exists o1 o2 sent,
          A.SetPixel strip pixel col o = Some (tt, o1)
          /\ transmissions (log (world o1)) = transmissions (log (world o))
          /\ A.FlushFrame o1 = Some (tt, o2)
          /\ transmissions (log (world o2))
             = transmissions (log (world o)) ++ [sent]
          /\ buffered_pixel sent (A.strip_handle (this o) strip) pixel
             = Some col)
  /\ (forall cs, Forall call_ok cs ->
        exists o' later,
          run cs o = Some (tt, o')
          /\ transmissions (log (world o'))
             = transmissions (log (world o)) ++ later).
Proof.
  intros Hwf. split; [|split; [|split]].
  - exists (logged o [ESendBuffers (A.spi_ (this o))]).
    split; [reflexivity|]. split; [reflexivity|].
    rewrite log_logged, transmissions_app. reflexivity.
  - intros c Hc Hnf. exists (logged o (A.call_events (this o) c)).
    split; [apply call_events_ok; assumption|].
    rewrite log_logged, transmissions_app, call_events_transmissions
      by exact Hnf.
    apply app_nil_r.
  - intros strip pixel col Hstrip.
    pose proof Hwf as (Hn & _).
    destruct (SetPixel_on_strip o strip pixel col Hwf
                ltac:(lia)) as (o1 & Hset & Hlog & Hpix & Htr).
    exists o1, (logged o1 [ESendBuffers (A.spi_ (this o1))]), (log (world o1)).
    split; [exact Hset|]. split; [exact Htr|]. split; [reflexivity|].
    split; [|exact Hpix].
    rewrite log_logged, transmissions_app, Htr. reflexivity.
  - intros cs Hcs.
    exists (logged o (flat_map (A.call_events (this o)) cs)).
    exists (transmissions_from (log (world o))
                               (flat_map (A.call_events (this o)) cs)).
    split; [apply run_events; assumption|].
    rewrite log_logged. apply transmissions_app.
Qed.

End Frames.

(** ** The lifetime of a device *)

Section Lifetime.
Context {env : Env}.

Lemma bus_controllers_app (l l' : list Event) :
  bus_controllers (l ++ l') = bus_controllers l ++ bus_controllers l'.
Proof. unfold bus_controllers. apply flat_map_app. Qed.

Lemma call_events_no_controller (d : A.t) (c : Call) :
  bus_controllers (A.call_events d c) = [].
Proof.
  destruct c as [buf size|strip pixel col|]; simpl.
  - pose proof (command_events_shape d buf size) as H.
    induction H as [|e es He _ IH]; [reflexivity|].
    unfold bus_controllers in *. simpl. rewrite IH.
    destruct e; simpl in *; (reflexivity || discriminate).
  - unfold A.pixel_events. destruct (strip <? A.num_strips_ d); reflexivity.
  - reflexivity.
Qed.

Lemma run_events_no_controller (d : A.t) (cs : list Call) :
  bus_controllers (flat_map (A.call_events d) cs) = [].
Proof.
  induction cs as [|c cs IH]; [reflexivity|].
  simpl. rewrite bus_controllers_app, call_events_no_controller, IH.
  reflexivity.
Qed.

(** C10: a device built for [num_strips] strips of [strip_len] pixels, after
    any sequence of [HandlePusherCommand], [SetPixel] and [FlushFrame]
    calls, holds the data members it was built with: [num_strips] strip
    handles, each created on the one bus controller the constructor created;
    and [num_strips()] and [num_pixel_per_strip()] return the two
    construction values and leave the object and the world as they are. *)
Theorem topology_is_fixed (num_strips strip_len : Z) (cs : list Call)
  (w : World) :
  0 <= num_strips < 2 ^ 31 ->
  Forall call_ok cs ->
  exists d w' o',
    A.new num_strips strip_len w = Some (d, w')
    /\ run cs (mkObject d w') = Some (tt, o')
    /\ this o' = d
    /\ Z.of_nat (List.length (A.strips_ d)) = num_strips
    /\ (forall h, In h (A.strips_ d) ->
          exists pin,
            In (ECreateStrip APA102 (A.spi_ d) pin strip_len h)
               (log (world o')))
    /\ bus_controllers (log (world o'))
       = bus_controllers (log w) ++ [A.spi_ d]
    /\ A.num_strips o' = Some (num_strips, o')
    /\ A.num_pixel_per_strip o' = Some (strip_len, o').
Proof.
  intros Hn Hcs.
  pose proof (new_spec num_strips strip_len w ltac:(lia)) as Hnew.
  pose proof (new_wf _ _ _ _ _ Hn Hnew) as Hwf.
  eexists _, _, _. split; [exact Hnew|].
  split; [apply run_events; [exact Hwf | exact Hcs]|].
  split; [reflexivity|]. split; [simpl; rewrite length_seq; lia|].
  split; [|split; [|split; reflexivity]].
  - intros h Hh. simpl in Hh. apply in_seq in Hh.
    exists (SPIPinForConnector (0 + Z.of_nat (h - S (next_handle w)) + 1)).
    rewrite log_logged. simpl. apply in_or_app. left.
    apply in_or_app. right. right. apply in_map_iff.
    exists (h - S (next_handle w))%nat. split.
    + f_equal. lia.
    + apply in_seq. lia.
  - rewrite log_logged. simpl log. simpl A.spi_. simpl this.
    rewrite !bus_controllers_app, run_events_no_controller, app_nil_r.
    f_equal. simpl. f_equal.
    generalize (seq 0 (Z.to_nat num_strips)). intros l.
    induction l as [|i l IH]; [reflexivity|exact IH].
Qed.

End Lifetime.

(** ** The two variants side by side *)

Section Variants.
Context {env : Env}.

Lemma lpd_create_strips_spec (spi : Handle) (strip_len : Z) (count : nat)
  (lo : Z) (w : World) :
  L.create_strips spi strip_len lo count w
  = Some (seq (next_handle w) count,
          mkWorld (next_handle w + count)%nat
            (log w ++ map (fun i => ECreateStrip LPD6803 spi
                                      (SPIPinForConnector (lo + Z.of_nat i + 1))
                                      strip_len (next_handle w + i)%nat)
                          (seq 0 count))).
Proof.
  revert lo w. induction count as [|count IH]; intros lo w.
  - simpl. unfold ret. rewrite app_nil_r, Nat.add_0_r. destruct w; reflexivity.
  - simpl L.create_strips. unfold bind at 1. unfold CreateLPD6803Strip at 1.
    unfold bind at 1, fresh at 1, bind at 1, emit at 1, ret at 1.
    cbv beta iota. simpl next_handle. simpl log.
    unfold bind at 1. rewrite IH. unfold ret. simpl next_handle. simpl log.
    f_equal. f_equal. f_equal.
    + lia.
    + rewrite <- app_assoc. f_equal. simpl. f_equal.
      * rewrite Z.add_0_r, Nat.add_0_r. reflexivity.
      * rewrite <- seq_shift, map_map. apply map_ext. intros i.
        f_equal; [f_equal|]; lia.
Qed.

Lemma lpd_new_spec (num_strips strip_len : Z) (w : World) :
  0 <= num_strips ->
  L.new num_strips strip_len w
  = Some (L.mk num_strips strip_len
               (seq (S (next_handle w)) (Z.to_nat num_strips))
               (next_handle w),
          mkWorld (S (next_handle w) + Z.to_nat num_strips)%nat
            (log w
             ++ ECreateDirectMultiSPI L.kLPD6308ClockMhz (next_handle w)
             :: map (fun i => ECreateStrip LPD6803 (next_handle w)
                                (SPIPinForConnector (0 + Z.of_nat i + 1))
                                strip_len (S (next_handle w) + i)%nat)
                    (seq 0 (Z.to_nat num_strips)))).
Proof.
  intros H. unfold L.new.
  replace (num_strips <? 0) with false by (symmetry; apply Z.ltb_ge; lia).
  unfold bind at 1. unfold CreateDirectMultiSPI.
  unfold bind at 1, fresh at 1, bind at 1, emit at 1, ret at 1.
  cbv beta iota. simpl next_handle. simpl log.
  unfold bind at 1. rewrite lpd_create_strips_spec. unfold ret.
  simpl next_handle. simpl log. rewrite <- app_assoc. reflexivity.
Qed.

Lemma lpd_call_events_ok (o : Object L.t) (a : A.t) (c : Call) :
  A.wf a -> same_members a (this o) -> call_ok c ->
  call c o = Some (tt, logged o (L.call_events (this o) c)).
Proof.
  intros (Hn & Hlen & _) (En & _ & Es & _) Hc.
  destruct c as [buf size|strip pixel col|]; simpl in *.
  - reflexivity.
  - unfold L.SetPixel, L.pixel_events. rewrite bind_member.
    rewrite uint32_small by lia.
    destruct (strip <? L.num_strips_ (this o)) eqn:Ek.
    + apply Z.ltb_lt in Ek.
      assert (Hat : L.strips_at strip o
                    = Some (L.strip_handle (this o) strip, o)).
      { unfold L.strips_at, L.strip_handle.
        rewrite nth_error_nth' with (d := O)
          by (rewrite <- Es; unfold Handle in *; lia).
        reflexivity. }
      rewrite (bind_some _ _ _ _ _ Hat). reflexivity.
    + unfold ret. rewrite logged_nil. reflexivity.
  - reflexivity.
Qed.

Lemma lpd_run_events (a : A.t) (cs : list Call) (o : Object L.t) :
  A.wf a -> same_members a (this o) -> Forall call_ok cs ->
  run cs o = Some (tt, logged o (flat_map (L.call_events (this o)) cs)).
Proof.
  intros Hwf Hsame Hcs. revert o Hsame.
  induction Hcs as [|c cs Hc _ IH]; intros o Hsame.
  - simpl. unfold ret. rewrite logged_nil. reflexivity.
  - simpl run.
    rewrite (bind_some _ _ _ _ _ (lpd_call_events_ok o a c Hwf Hsame Hc)).
    rewrite IH by (rewrite this_logged; exact Hsame).
    rewrite logged_app, this_logged. reflexivity.
Qed.

(** Call by call, the two variants forward the same pixels and flush the
    same bus. *)
Lemma call_events_pixels_agree (a : A.t) (l : L.t) (c : Call) :
  (forall buf size, quiet (OutputDevice_HandlePusherCommand buf size) = true) ->
  same_members a l ->
  filter is_pixel_or_flush (A.call_events a c)
  = filter is_pixel_or_flush (L.call_events l c).
Proof.
  intros Hbase (En & _ & Es & Ep).
  destruct c as [buf size|strip pixel col|]; simpl.
  - transitivity (@nil Event).
    + pose proof (command_events_shape a buf size) as H.
      induction H as [|e es He _ IH]; [reflexivity|]. simpl. rewrite IH.
      destruct e; simpl in *; (reflexivity || discriminate).
    + symmetry. pose proof (quiet_Forall _ (Hbase buf size)) as H.
      induction H as [|e es He _ IH]; [reflexivity|]. simpl. rewrite IH.
      destruct e; simpl in *; (reflexivity || discriminate).
  - unfold A.pixel_events, L.pixel_events, A.strip_handle, L.strip_handle.
    rewrite En, Es. reflexivity.
  - rewrite Ep. reflexivity.
Qed.

Lemma lpd_call_events_no_brightness (l : L.t) (cs : list Call) :
  (forall buf size, quiet (OutputDevice_HandlePusherCommand buf size) = true) ->
  filter is_brightness_call (flat_map (L.call_events l) cs) = [].
Proof.
  intros Hbase. induction cs as [|c cs IH]; [reflexivity|].
  simpl. rewrite filter_app, IH, app_nil_r.
  destruct c as [buf size|strip pixel col|]; simpl.
  - pose proof (quiet_Forall _ (Hbase buf size)) as H.
    induction H as [|e es He _ IHes]; [reflexivity|]. simpl. rewrite IHes.
    destruct e; simpl in *; (reflexivity || discriminate).
  - unfold L.pixel_events. destruct (strip <? L.num_strips_ l); reflexivity.
  - reflexivity.
Qed.

(** C2, as the code has it: built alike and called alike, the two variants
    make the same sequence of [SetPixel8] and [SendBuffers] calls, on the
    same handles.  [LPD6803SpixelsDevice] declares no [HandlePusherCommand];
    with the inherited one making no call into spixels, it never calls
    [SetBrightnessScale]. *)
Theorem variants_agree_on_pixels_and_flushes (num_strips strip_len : Z)
  (cs : list Call) (w : World) :
  (forall buf size, quiet (OutputDevice_HandlePusherCommand buf size) = true) ->
  0 <= num_strips < 2 ^ 31 ->
  Forall call_ok cs ->
  exists da wa oa dl wl ol,
    A.new num_strips strip_len w = Some (da, wa)
    /\ L.new num_strips strip_len w = Some (dl, wl)
    /\ same_members da dl
    /\ run cs (mkObject da wa) = Some (tt, oa)
    /\ run cs (mkObject dl wl) = Some (tt, ol)
    /\ filter is_pixel_or_flush (log (world oa))
       = filter is_pixel_or_flush (log (world ol))
    /\ filter is_brightness_call (log (world ol))
       = filter is_brightness_call (log w).
Proof.
  intros Hbase Hn Hcs.
  pose proof (new_spec num_strips strip_len w ltac:(lia)) as Hnew.
  pose proof (new_wf _ _ _ _ _ Hn Hnew) as Hwf.
  pose proof (lpd_new_spec num_strips strip_len w ltac:(lia)) as Hlnew.
  eexists _, _, _, _, _, _.
  split; [exact Hnew|]. split; [exact Hlnew|].
  split; [repeat split|].
  split; [apply run_events; [exact Hwf | exact Hcs]|].
  split; [eapply lpd_run_events; [exact Hwf | repeat split | exact Hcs]|].
  rewrite !log_logged. simpl log. simpl this. split.
  - rewrite !filter_app. f_equal.
    + f_equal. simpl. generalize (seq 0 (Z.to_nat num_strips)). intros l.
      induction l as [|i l IH]; [reflexivity|exact IH].
    + induction cs as [|c cs IH]; [reflexivity|].
      simpl. rewrite !filter_app. f_equal.
      * apply call_events_pixels_agree; [exact Hbase | repeat split].
      * apply IH. inversion Hcs; assumption.
  - rewrite !filter_app, lpd_call_events_no_brightness, app_nil_r by exact Hbase.
    simpl. replace (filter is_brightness_call (map _ _)) with (@nil Event).
    + apply app_nil_r.
    + generalize (seq 0 (Z.to_nat num_strips)). intros l.
      induction l as [|i l IH]; [reflexivity|exact IH].
Qed.

End Variants.

(** ** The code on concrete rigs *)

(** [rig] holds the data members the constructor builds in an empty world. *)
Lemma rig_is_constructed {env : Env} (num_strips strip_len : Z) :
  0 <= num_strips ->
  exists w',
    A.new num_strips strip_len empty_world
    = Some (this (rig num_strips strip_len), w')
    /\ next_handle w' = next_handle (world (rig num_strips strip_len)).
Proof.
  intros H. eexists. rewrite new_spec by exact H. split; reflexivity.
Qed.

Lemma rig_wf (num_strips strip_len : Z) :
  0 <= num_strips < 2 ^ 31 -> A.wf (this (rig num_strips strip_len)).
Proof.
  intros H. unfold A.wf, rig. simpl. split; [exact H|]. split.
  - apply length_seq.
  - apply seq_NoDup.
Qed.

Lemma one_frame_ok : Forall call_ok one_frame.
Proof. repeat constructor; simpl; lia. Qed.

(** The scenario of the spec: on 4 strips, GlobalBrightness 0xFFFF puts every
    strip at 1.0; StripBrightness 0x0000 for strip 1 then puts strip 1 at
    2^-16 and leaves strips 0, 2 and 3 at 1.0. *)
Example scenario_of_the_spec :
  exists o1 o2,
    A.HandlePusherCommand (env := rpi_env) global_full 3 (rig 4 10)
    = Some (tt, o1)
    /\ map (A.strip_brightness o1) [0; 1; 2; 3]
       = [Some f1; Some f1; Some f1; Some f1]
    /\ A.HandlePusherCommand (env := rpi_env) strip1_dark 4 o1 = Some (tt, o2)
    /\ map (A.strip_brightness o2) [0; 1; 2; 3]
       = [Some f1; Some f1_65536; Some f1; Some f1].
Proof.
  eexists _, _. split; [vm_compute; reflexivity|].
  split; [vm_compute; reflexivity|].
  split; vm_compute; reflexivity.
Qed.

(** Where plain [char] is signed, an index byte of 128 or more is
    sign-extended and addresses no strip: on 256 strips the command for
    strip 200 only reads its first two bytes. *)
Example signed_char_drops_high_index :
  A.HandlePusherCommand (env := signed_char_env) strip200_full 4 (rig 256 10)
  = Some (tt, logged (rig 256 10) [ELoad 0; ELoad 1]).
Proof. vm_compute. reflexivity. Qed.

(** C3: on a build with a signed plain [char] the command "StripBrightness,
    strip 200, 0xFFFF" on 256 strips sets the scale of no strip, where strip
    200 should get the new scale: every strip has the scale it had. *)
Lemma strip_brightness_high_index_sets_no_strip :
  u8 (byte_at strip200_full 1) = 200
  /\ 200 < A.num_strips_ (this (rig 256 10))
  /\ exists o',
       A.HandlePusherCommand (env := signed_char_env) strip200_full 4
                             (rig 256 10)
       = Some (tt, o')
       /\ (forall k, A.strip_brightness o' k
                     = A.strip_brightness (rig 256 10) k)
       /\ A.strip_brightness o' 200 = None.
Proof.
  split; [reflexivity|]. split; [reflexivity|].
  exists (logged (rig 256 10) [ELoad 0; ELoad 1]).
  split; [vm_compute; reflexivity|]. split; [|reflexivity].
  intros k. reflexivity.
Qed.

(** C9: on a build with a signed plain [char] the index byte 0xC8 is not
    read as 200 but sign-extended to 4294967240, which is no strip of a
    device of 256: the command makes no call into spixels. *)
Lemma strip_index_byte_is_sign_extended :
  u8 (byte_at strip200_full 1) = 200
  /\ uint32 (char_to_int (char_signed (Env := signed_char_env))
                         (byte_at strip200_full 1))
     = 4294967240
  /\ 200 < A.num_strips_ (this (rig 256 10))
  /\ exists o',
       A.HandlePusherCommand (env := signed_char_env) strip200_full 4
                             (rig 256 10)
       = Some (tt, o')
       /\ driver_calls (log (world o')) = driver_calls (log (world (rig 256 10)))
       /\ loads (log (world o')) = [0; 1].
Proof.
  split; [reflexivity|]. split; [reflexivity|]. split; [reflexivity|].
  exists (logged (rig 256 10) [ELoad 0; ELoad 1]).
  split; [vm_compute; reflexivity|]. split; reflexivity.
Qed.

(** An unknown tag 7 is printed as 7. *)
Example unknown7_line :
  A.HandlePusherCommand (env := rpi_env) unknown7 1 (rig 4 10)
  = Some (tt, logged (rig 4 10)
                [ELoad 0; ELoad 0;
                 EStderr ("HandlePusherCommand() - unknown command:7"
                            ++ newline)]).
Proof. vm_compute. reflexivity. Qed.

Lemma global_brightness_sets_every_strip_witness :
  exists o',
    A.HandlePusherCommand (env := rpi_env) global_full 3 (rig 4 10)
    = Some (tt, o')
    /\ (forall k, 0 <= k < 4 -> A.strip_brightness o' k = Some f1).
Proof.
  destruct (global_brightness_sets_every_strip (env := rpi_env)
              (rig 4 10) global_full 3) as (o' & H & Hall & _).
  - apply rig_wf. lia.
  - simpl. lia.
  - reflexivity.
  - exists o'. split; [exact H | exact Hall].
Defined.

Lemma strip_brightness_sets_one_strip_witness :
  exists o',
    A.HandlePusherCommand (env := rpi_env) strip1_dark 4 (rig 4 10)
    = Some (tt, o')
    /\ A.strip_brightness o' 1 = Some f1_65536
    /\ A.strip_brightness o' 0 = A.strip_brightness (rig 4 10) 0.
Proof.
  destruct (strip_brightness_sets_one_strip (env := rpi_env)
              (rig 4 10) strip1_dark 4) as (o' & H & Hk & Hothers).
  - apply rig_wf. lia.
  - simpl. lia.
  - simpl. lia.
  - reflexivity.
  - left. reflexivity.
  - vm_compute. reflexivity.
  - exists o'. split; [exact H|]. split; [exact Hk|].
    apply Hothers; [simpl; lia | vm_compute; discriminate].
Defined.

Lemma strip_index_is_the_byte_value_witness :
  exists o',
    A.HandlePusherCommand (env := rpi_env) strip200_full 4 (rig 256 10)
    = Some (tt, o')
    /\ driver_calls (log (world o')) = [ESetBrightnessScale 201%nat f1].
Proof.
  destruct (strip_index_is_the_byte_value (env := rpi_env)
              (rig 256 10) strip200_full 4) as (o' & H & Hcalls & _).
  - apply rig_wf. lia.
  - simpl. lia.
  - simpl. lia.
  - reflexivity.
  - left. reflexivity.
  - vm_compute. reflexivity.
  - exists o'. split; [exact H | exact Hcalls].
Defined.

Lemma strip_brightness_out_of_range_ignored_witness :
  exists o',
    A.HandlePusherCommand (env := rpi_env) strip9_full 4 (rig 4 10)
    = Some (tt, o')
    /\ this o' = this (rig 4 10)
    /\ same_strip_state (log (world (rig 4 10))) (log (world o'))
    /\ stderr (log (world o')) = [].
Proof.
  apply (strip_brightness_out_of_range_ignored (env := rpi_env)
           (rig 4 10) strip9_full 4).
  - apply rig_wf. lia.
  - simpl. lia.
  - simpl. lia.
  - reflexivity.
  - vm_compute. discriminate.
Defined.

Lemma short_command_is_ignored_witness :
  exists o' es,
    A.HandlePusherCommand (env := rpi_env) global_short 2 (rig 4 10)
    = Some (tt, o')
    /\ this o' = this (rig 4 10)
    /\ log (world o') = log (world (rig 4 10)) ++ es
    /\ same_strip_state (log (world (rig 4 10))) (log (world o'))
    /\ stderr es = []
    /\ Forall (fun off => 0 <= off < 2) (loads es).
Proof.
  apply (short_command_is_ignored (env := rpi_env) (rig 4 10) global_short 2).
  - apply rig_wf. lia.
  - simpl. lia.
  - simpl. lia.
  - right. left. split; [reflexivity | lia].
Defined.


Lemma SetPixel_forwards_or_ignores_witness :
  exists o',
    A.SetPixel 1 12 red_pixel (rig 4 10) = Some (tt, o')
    /\ log (world o') = [ESetPixel8 2%nat 12 255 0 0].
Proof.
  destruct (SetPixel_forwards_or_ignores (rig 4 10) 1 12 red_pixel)
    as (o' & H & _ & Hin).
  - apply rig_wf. lia.
  - lia.
  - exists o'. split; [exact H|].
    destruct Hin as (_ & _ & Hlog & _); [simpl; lia | exact Hlog].
Defined.

Lemma FlushFrame_is_the_only_transmit_witness :
  exists o',
    A.FlushFrame (rig 4 10) = Some (tt, o')
    /\ log (world o') = [ESendBuffers O]
    /\ transmissions (log (world o')) = [[]].
Proof.
  destruct (FlushFrame_is_the_only_transmit (env := rpi_env) (rig 4 10))
    as (Hflush & _).
  - apply rig_wf. lia.
  - exact Hflush.
Defined.

Lemma topology_is_fixed_witness :
  exists d w' o',
    A.new (env := rpi_env) 4 10 empty_world = Some (d, w')
    /\ run (dev := A.device (env := rpi_env)) one_frame (mkObject d w')
       = Some (tt, o')
    /\ this o' = d
    /\ Z.of_nat (List.length (A.strips_ d)) = 4
    /\ (forall h, In h (A.strips_ d) ->
          exists pin,
            In (ECreateStrip APA102 (A.spi_ d) pin 10 h) (log (world o')))
    /\ bus_controllers (log (world o'))
       = bus_controllers (log empty_world) ++ [A.spi_ d]
    /\ A.num_strips o' = Some (4, o')
    /\ A.num_pixel_per_strip o' = Some (10, o').
Proof.
  apply (topology_is_fixed (env := rpi_env) 4 10 one_frame empty_world).
  - lia.
  - exact one_frame_ok.
Defined.

Lemma variants_agree_on_pixels_and_flushes_witness :
  exists da wa oa dl wl ol,
    A.new (env := rpi_env) 4 10 empty_world = Some (da, wa)
    /\ L.new (env := rpi_env) 4 10 empty_world = Some (dl, wl)
    /\ same_members da dl
    /\ run (dev := A.device (env := rpi_env)) one_frame (mkObject da wa)
       = Some (tt, oa)
    /\ run (dev := L.device (env := rpi_env)) one_frame (mkObject dl wl)
       = Some (tt, ol)
    /\ filter is_pixel_or_flush (log (world oa))
       = filter is_pixel_or_flush (log (world ol))
    /\ filter is_brightness_call (log (world ol))
       = filter is_brightness_call (log empty_world).
Proof.
  apply (variants_agree_on_pixels_and_flushes (env := rpi_env)
           4 10 one_frame empty_world).
  - intros buf size. reflexivity.
  - lia.
  - exact one_frame_ok.
Defined.

(** C2, as stated, fails: on one GlobalBrightness command the APA102 variant
    calls [SetBrightnessScale] on its strip and the LPD6803 variant calls
    nothing. *)
Lemma variants_disagree_on_brightness :
  calls_after (dev := A.device (env := rpi_env))
    (A.new (env := rpi_env) 1 1 empty_world)
    [CallHandlePusherCommand global_full 3]
  = Some [ESetBrightnessScale 1%nat f1]
  /\ calls_after (dev := L.device (env := rpi_env))
       (L.new (env := rpi_env) 1 1 empty_world)
       [CallHandlePusherCommand global_full 3]
     = Some []
  /\ calls_after (dev := A.device (env := rpi_env))
       (A.new (env := rpi_env) 1 1 empty_world)
       [CallHandlePusherCommand global_full 3]
     <> calls_after (dev := L.device (env := rpi_env))
          (L.new (env := rpi_env) 1 1 empty_world)
          [CallHandlePusherCommand global_full 3].
Proof.
  split; [vm_compute; reflexivity|]. split; [vm_compute; reflexivity|].
  vm_compute. discriminate.
Qed.

(** * More of the file *)

(** ** Commands, whatever they are *)

Section Commands.
Context {env : Env}.

(** The branches of [HandlePusherCommand], each with what it has checked. *)
Lemma command_events_cases (d : A.t) (buf : list byte) (size : Z) :
  let es := A.command_events d buf size in
  (size < 1 /\ es = [])
  \/ (1 <= size /\ es = [ELoad 0])
  \/ (1 <= size /\ exists line, es = [ELoad 0; ELoad 0; EStderr line])
  \/ (3 <= size
      /\ exists s, es = [ELoad 0; ELoad 1; ELoad 2]
                        ++ map (fun h => ESetBrightnessScale h s) (A.strips_ d))
  \/ (4 <= size /\ es = [ELoad 0; ELoad 1])
  \/ (4 <= size
      /\ exists k s, 0 <= k < A.num_strips_ d
                     /\ es = [ELoad 0; ELoad 1; ELoad 2; ELoad 3;
                              ESetBrightnessScale (A.strip_handle d k) s]).
Proof.
  unfold A.command_events.
  destruct (1 <=? size) eqn:E1; [apply Z.leb_le in E1 | apply Z.leb_gt in E1].
  2:{ left. split; [lia | reflexivity]. }
  cbv zeta.
  destruct (_ =? PPPusherCommandGlobalBrightness).
  - destruct (3 <=? size) eqn:E3; [apply Z.leb_le in E3|].
    + right. right. right. left. split; [exact E3|]. eexists. reflexivity.
    + right. left. split; [exact E1 | reflexivity].
  - destruct (_ =? PPPusherCommandStripBrightness).
    + destruct (4 <=? size) eqn:E4; [apply Z.leb_le in E4|].
      * destruct (_ <? A.num_strips_ d) eqn:Ek.
        -- apply Z.ltb_lt in Ek. do 5 right. split; [exact E4|].
           eexists _, _. split; [|reflexivity].
           split; [unfold uint32; apply Z.mod_pos_bound; lia | exact Ek].
        -- do 4 right. left. split; [exact E4 | reflexivity].
      * right. left. split; [exact E1 | reflexivity].
    + right. right. left. split; [exact E1|]. eexists. reflexivity.
Qed.

Lemma loads_set_all (hs : list Handle) (s : float) :
  loads (map (fun h => ESetBrightnessScale h s) hs) = [].
Proof. induction hs as [|h hs IH]; [reflexivity | exact IH]. Qed.

(** X1: on a buffer of [size] bytes, [HandlePusherCommand] returns whatever
    the bytes are, and every byte it reads is at an offset below [size]; it
    reads at most four times. *)
Theorem HandlePusherCommand_reads_within_size (o : Object A.t)
  (buf : list byte) (size : Z) :
  A.wf (this o) ->
  0 <= size <= Z.of_nat (List.length buf) ->
  exists o' es,
    A.HandlePusherCommand buf size o = Some (tt, o')
    /\ log (world o') = log (world o) ++ es
    /\ Forall (fun off => 0 <= off < size) (loads es)
    /\ (List.length (loads es) <= 4)%nat.
Proof.
  intros Hwf Hsize.
  exists (logged o (A.command_events (this o) buf size)).
  exists (A.command_events (this o) buf size).
  split; [apply HandlePusherCommand_events; assumption|].
  split; [reflexivity|].
  destruct (command_events_cases (this o) buf size)
    as [[H ->] | [[H ->] | [[H [line ->]] | [[H [s ->]]
       | [[H ->] | [H (k & s & _ & ->)]]]]]];
    try (unfold loads; rewrite flat_map_app; fold (loads (map (fun h => ESetBrightnessScale h s) (A.strips_ (this o))));
         rewrite loads_set_all);
    simpl; (split; [repeat constructor; lia | lia]).
Qed.

(** X2: no command writes a pixel or transmits: whatever the buffer holds,
    after [HandlePusherCommand] every pixel of every strip is buffered as
    before, the transmissions are those made before, and the data members
    are unchanged. *)
Theorem HandlePusherCommand_leaves_pixels (o : Object A.t) (buf : list byte)
  (size : Z) :
  A.wf (this o) ->
  0 <= size <= Z.of_nat (List.length buf) ->
  exists o',
    A.HandlePusherCommand buf size o = Some (tt, o')
    /\ this o' = this o
    /\ (forall h p, buffered_pixel (log (world o')) h p
                    = buffered_pixel (log (world o)) h p)
    /\ transmissions (log (world o')) = transmissions (log (world o)).
Proof.
  intros Hwf Hsize.
  exists (logged o (A.command_events (this o) buf size)).
  split; [apply HandlePusherCommand_events; assumption|].
  split; [reflexivity|]. rewrite log_logged. split.
  - intros h p. rewrite buffered_pixel_app.
    generalize (buffered_pixel (log (world o)) h p).
    pose proof (command_events_shape (this o) buf size) as H.
    induction H as [|e es He _ IH]; intros acc; [reflexivity|].
    simpl. rewrite IH. destruct e; simpl in *; (reflexivity || discriminate).
  - rewrite transmissions_app, command_events_no_transmit. apply app_nil_r.
Qed.

(** X4: a command is its first four bytes: two buffers of four bytes or more
    that agree on their first four bytes have the same effect, whatever
    follows and whatever their sizes. *)
Theorem command_is_its_first_four_bytes (o : Object A.t)
  (buf buf' : list byte) (size size' : Z) :
  A.wf (this o) ->
  4 <= size <= Z.of_nat (List.length buf) ->
  4 <= size' <= Z.of_nat (List.length buf') ->
  firstn 4 buf = firstn 4 buf' ->
  A.HandlePusherCommand buf size o = A.HandlePusherCommand buf' size' o.
Proof.
  intros Hwf Hs Hs' Hfirst.
  rewrite !HandlePusherCommand_events by (assumption || lia).
  assert (Hat : forall off, 0 <= off < 4 -> byte_at buf off = byte_at buf' off).
  { intros off Hoff. unfold byte_at.
    assert (Hlt : (Z.to_nat off <? 4)%nat = true) by (apply Nat.ltb_lt; lia).
    pose proof (nth_firstn 4 buf (Z.to_nat off) Byte.x00) as H1.
    pose proof (nth_firstn 4 buf' (Z.to_nat off) Byte.x00) as H2.
    rewrite Hlt in H1, H2. rewrite <- H1, <- H2, Hfirst. reflexivity. }
  do 2 f_equal. unfold A.command_events, A.u16_at.
  replace (1 <=? size) with true by (symmetry; apply Z.leb_le; lia).
  replace (1 <=? size') with true by (symmetry; apply Z.leb_le; lia).
  replace (3 <=? size) with true by (symmetry; apply Z.leb_le; lia).
  replace (3 <=? size') with true by (symmetry; apply Z.leb_le; lia).
  replace (4 <=? size) with true by (symmetry; apply Z.leb_le; lia).
  replace (4 <=? size') with true by (symmetry; apply Z.leb_le; lia).
  rewrite (Hat 0), (Hat 1), (Hat 2), (Hat (1 + 1)), (Hat (2 + 1)) by lia.
  reflexivity.
Qed.

(** X8: where plain [char] is signed, a StripBrightness command whose index
    byte is 128 or more addresses no strip, however many strips there are:
    the call reads bytes 0 and 1 and returns. *)
Theorem signed_char_index_byte_is_dropped (o : Object A.t) (buf : list byte)
  (size : Z) :
  A.wf (this o) ->
  PPPusherCommandGlobalBrightness <> PPPusherCommandStripBrightness ->
  4 <= size <= Z.of_nat (List.length buf) ->
  char_to_int char_signed (byte_at buf 0) = PPPusherCommandStripBrightness ->
  char_signed = true ->
  128 <= u8 (byte_at buf 1) ->
  A.HandlePusherCommand buf size o = Some (tt, logged o [ELoad 0; ELoad 1]).
Proof.
  intros Hwf Hne Hsize Htag Hsigned Hb.
  pose proof (u8_range (byte_at buf 1)) as Hr. pose proof Hwf as (Hn & _).
  rewrite HandlePusherCommand_events by (assumption || lia).
  do 2 f_equal. unfold A.command_events.
  replace (1 <=? size) with true by (symmetry; apply Z.leb_le; lia).
  rewrite Htag.
  replace (PPPusherCommandStripBrightness =? PPPusherCommandGlobalBrightness)
    with false by (symmetry; apply Z.eqb_neq; congruence).
  rewrite Z.eqb_refl.
  replace (4 <=? size) with true by (symmetry; apply Z.leb_le; lia).
  cbv zeta. rewrite uint32_char_to_int, Hsigned.
  replace (128 <=? u8 (byte_at buf 1)) with true
    by (symmetry; apply Z.leb_le; lia).
  simpl andb. cbv iota.
  replace (_ <? A.num_strips_ (this o)) with false
    by (symmetry; apply Z.ltb_ge; lia).
  reflexivity.
Qed.

End Commands.

(** ** The scale, as a function of the 16-bit value *)

Lemma float_denotes_unique (x : float) (q q' : Q) :
  float_denotes x q -> float_denotes x q' -> Qeq q q'.
Proof.
  unfold float_denotes. destruct (float_value x) as [r|]; [|contradiction].
  intros H H'. rewrite <- H, <- H'. reflexivity.
Qed.

(** X3: the scale of a brightness value is never zero and never above one,
    and a larger 16-bit value gives a strictly larger scale: no two values
    share a scale. *)
Theorem scale_is_positive_and_increasing (v v' : Z) :
  0 <= v < v' -> v' < 65536 ->
  exists q q',
    float_denotes (A.scale_of (v + 1)) q
    /\ float_denotes (A.scale_of (v' + 1)) q'
    /\ (0 < q)%Q /\ (q < q')%Q /\ (q' <= 1)%Q
    /\ A.scale_of (v + 1) <> A.scale_of (v' + 1).
Proof.
  intros Hv Hv'.
  pose proof (scale_of_exact v ltac:(lia)) as H.
  pose proof (scale_of_exact v' ltac:(lia)) as H'.
  assert (Hlt : ((v + 1) # 65536 < (v' + 1) # 65536)%Q)
    by (unfold Qlt; simpl; lia).
  exists ((v + 1) # 65536), ((v' + 1) # 65536).
  split; [exact H|]. split; [exact H'|].
  split; [unfold Qlt; simpl; lia|]. split; [exact Hlt|].
  split; [unfold Qle; simpl; lia|].
  intros E. rewrite E in H.
  pose proof (float_denotes_unique _ _ _ H H') as Heq.
  rewrite Heq in Hlt. exact (Qlt_irrefl _ Hlt).
Qed.

(** ** Calls in sequence *)

Section Sequences.
Context {env : Env}.

(** X5: after a GlobalBrightness command and then a StripBrightness command
    for strip [k], strip [k] has the scale of the second command and every
    other strip the scale of the first. *)
Theorem global_then_strip_brightness (o : Object A.t) (g s : list byte)
  (gsize ssize : Z) :
  A.wf (this o) ->
  PPPusherCommandGlobalBrightness <> PPPusherCommandStripBrightness ->
  3 <= gsize <= Z.of_nat (List.length g) ->
  char_to_int char_signed (byte_at g 0) = PPPusherCommandGlobalBrightness ->
  4 <= ssize <= Z.of_nat (List.length s) ->
  char_to_int char_signed (byte_at s 0) = PPPusherCommandStripBrightness ->
  let k := u8 (byte_at s 1) in
  char_signed = false \/ k < 128 ->
  k < A.num_strips_ (this o) ->
  exists o1 o2,
    A.HandlePusherCommand g gsize o = Some (tt, o1)
    /\ A.HandlePusherCommand s ssize o1 = Some (tt, o2)
    /\ (forall j, 0 <= j < A.num_strips_ (this o) ->
          A.strip_brightness o2 j
          = Some (if j =? k then A.scale_of (A.u16_at s 2 + 1)
                  else A.scale_of (A.u16_at g 1 + 1))).
Proof.
  intros Hwf Hne Hg Hgtag Hs Hstag k Hchar Hk.
  pose proof (u8_range (byte_at s 1)) as Hr. fold k in Hr.
  exists (logged o (A.command_events (this o) g gsize)).
  exists (logged (logged o (A.command_events (this o) g gsize))
                 (A.command_events (this o) s ssize)).
  split; [apply HandlePusherCommand_events; [exact Hwf | lia]|].
  split; [apply (HandlePusherCommand_events (logged o _));
          [exact Hwf | lia]|].
  intros j Hj. unfold A.strip_brightness.
  rewrite !this_logged, !log_logged.
  rewrite (strip_command_events (this o) s ssize Hne) by (assumption || lia).
  fold k. rewrite brightness_app. simpl fold_left.
  destruct (j =? k) eqn:Ejk.
  - apply Z.eqb_eq in Ejk. subst j. rewrite Nat.eqb_refl. reflexivity.
  - apply Z.eqb_neq in Ejk.
    replace (Nat.eqb _ _) with false.
    2:{ symmetry. apply Nat.eqb_neq. intros E. apply Ejk. symmetry.
        apply (strip_handle_inj (this o)); (assumption || lia). }
    rewrite brightness_app. unfold A.command_events.
    replace (1 <=? gsize) with true by (symmetry; apply Z.leb_le; lia).
    rewrite Hgtag, Z.eqb_refl.
    replace (3 <=? gsize) with true by (symmetry; apply Z.leb_le; lia).
    cbv zeta. rewrite fold_left_app. simpl fold_left at 2.
    rewrite brightness_set_all.
    replace (existsb _ (A.strips_ (this o))) with true; [reflexivity|].
    symmetry. apply existsb_exists.
    exists (A.strip_handle (this o) j). split.
    + apply strip_handle_In; assumption.
    + apply Nat.eqb_refl.
Qed.

(** X6: of two writes to the same pixel the second stays; they leave every
    other pixel of the device and every scale as they were. *)
Theorem SetPixel_last_write_stays (o : Object A.t) (strip pixel : Z)
  (c1 c2 : PixelColor) :
  A.wf (this o) ->
  0 <= strip < A.num_strips_ (this o) ->
  exists o1 o2,
    A.SetPixel strip pixel c1 o = Some (tt, o1)
    /\ A.SetPixel strip pixel c2 o1 = Some (tt, o2)
    /\ buffered_pixel (log (world o2)) (A.strip_handle (this o) strip) pixel
       = Some c2
    /\ (forall strip' pixel',
          0 <= strip' < A.num_strips_ (this o) ->
          strip' <> strip \/ pixel' <> pixel ->
          buffered_pixel (log (world o2)) (A.strip_handle (this o) strip')
                         pixel'
          = buffered_pixel (log (world o)) (A.strip_handle (this o) strip')
                           pixel')
    /\ (forall h, brightness (log (world o2)) h = brightness (log (world o)) h).
Proof.
  intros Hwf Hstrip. pose proof Hwf as (Hn & _).
  assert (Hev : forall c, A.pixel_events (this o) strip pixel c
                = [ESetPixel8 (A.strip_handle (this o) strip) pixel
                              (red c) (green c) (blue c)]).
  { intros c. unfold A.pixel_events.
    replace (strip <? A.num_strips_ (this o)) with true
      by (symmetry; apply Z.ltb_lt; lia).
    reflexivity. }
  exists (logged o (A.pixel_events (this o) strip pixel c1)).
  exists (logged (logged o (A.pixel_events (this o) strip pixel c1))
                 (A.pixel_events (this o) strip pixel c2)).
  split; [apply SetPixel_events; [exact Hwf | lia]|].
  split; [apply (SetPixel_events (logged o _)); [exact Hwf | lia]|].
  rewrite !log_logged, !Hev, <- app_assoc. simpl app.
  split; [|split].
  - rewrite buffered_pixel_app. simpl. rewrite Nat.eqb_refl, Z.eqb_refl.
    destruct c2; reflexivity.
  - intros strip' pixel' Hstrip' Hother. rewrite buffered_pixel_app. simpl.
    assert (E : Nat.eqb (A.strip_handle (this o) strip)
                        (A.strip_handle (this o) strip')
                && (pixel =? pixel') = false).
    { destruct Hother as [Hs | Hp].
      - replace (Nat.eqb _ _) with false; [reflexivity|].
        symmetry. apply Nat.eqb_neq. intros E. apply Hs. symmetry.
        apply (strip_handle_inj (this o)); (assumption || lia).
      - replace (pixel =? pixel') with false
          by (symmetry; apply Z.eqb_neq; congruence).
        apply andb_false_r. }
    rewrite E. reflexivity.
  - intros h. rewrite brightness_app. reflexivity.
Qed.

Lemma transmissions_from_length (seen es : list Event) :
  List.length (transmissions_from seen es)
  = List.length (filter (fun e => match e with
                                  | ESendBuffers _ => true
                                  | _ => false
                                  end) es).
Proof.
  revert seen. induction es as [|e es IH]; intros seen; [reflexivity|].
  simpl. rewrite length_app, IH. destruct e; reflexivity.
Qed.

(** X7: a sequence of calls transmits once for each [FlushFrame] in it,
    neither more nor less. *)
Theorem one_transmission_per_flush (o : Object A.t) (cs : list Call) :
  A.wf (this o) ->
  Forall call_ok cs ->
  exists o',
    run cs o = Some (tt, o')
    /\ List.length (transmissions (log (world o')))
       = (List.length (transmissions (log (world o))) + flushes cs)%nat.
Proof.
  intros Hwf Hcs.
  exists (logged o (flat_map (A.call_events (this o)) cs)).
  split; [apply run_events; assumption|].
  rewrite log_logged, transmissions_app, length_app. f_equal.
  generalize (log (world o)). clear Hcs.
  induction cs as [|c cs IH]; intros seen; [reflexivity|].
  simpl flat_map. rewrite transmissions_from_app, length_app, IH.
  unfold flushes. simpl filter.
  destruct c as [buf size|strip pixel col|]; simpl is_flush; cbv iota.
  - rewrite (call_events_transmissions _ (CallHandlePusherCommand buf size))
      by discriminate.
    reflexivity.
  - rewrite (call_events_transmissions _ (CallSetPixel strip pixel col))
      by discriminate.
    reflexivity.
  - reflexivity.
Qed.

(** X9: whatever the server calls, the device calls into spixels only on
    its own objects: [SetBrightnessScale] and [SetPixel8] on strips of
    [strips_], [SendBuffers] on [spi_]; and it creates no object. *)
Theorem calls_stay_on_own_objects (o : Object A.t) (cs : list Call) :
  A.wf (this o) ->
  Forall call_ok cs ->
  exists o' es,
    run cs o = Some (tt, o')
    /\ log (world o') = log (world o) ++ es
    /\ Forall (on_own_object (this o)) es.
Proof.
  intros Hwf Hcs.
  exists (logged o (flat_map (A.call_events (this o)) cs)).
  exists (flat_map (A.call_events (this o)) cs).
  split; [apply run_events; assumption|]. split; [reflexivity|].
  apply Forall_flat_map. rewrite Forall_forall in Hcs |- *. intros c Hin.
  specialize (Hcs c Hin).
  destruct c as [buf size|strip pixel col|]; simpl in *.
  - destruct (command_events_cases (this o) buf size)
      as [[H ->] | [[H ->] | [[H [line ->]] | [[H [s ->]]
         | [[H ->] | [H (k & s & Hk & ->)]]]]]].
    + constructor.
    + repeat constructor.
    + repeat constructor.
    + apply Forall_app. split; [repeat constructor|].
      apply Forall_map, Forall_forall. intros h Hh. exact Hh.
    + repeat constructor.
    + repeat constructor. simpl. apply strip_handle_In; assumption.
  - unfold A.pixel_events.
    destruct (strip <? A.num_strips_ (this o)) eqn:Ek; [|constructor].
    apply Z.ltb_lt in Ek. repeat constructor. simpl.
    apply strip_handle_In; [exact Hwf | lia].
  - repeat constructor.
Qed.

End Sequences.

(** ** Construction and destruction *)

Section Construction.
Context {env : Env}.

Lemma delete_loop (strips : list Handle) (n lo : nat) (fs : list Free) :
  (lo + n <= List.length strips)%nat ->
  for_int (Z.of_nat lo) n
    (fun strip => match nth_error strips (Z.to_nat strip) with
                  | Some h => free (FreeStrip h)
                  | None => undefined
                  end) fs
  = Some (tt, fs ++ map FreeStrip (firstn n (skipn lo strips))).
Proof.
  revert lo fs. induction n as [|n IH]; intros lo fs H.
  - simpl. unfold ret. rewrite app_nil_r. reflexivity.
  - destruct (nth_error strips lo) as [h|] eqn:E.
    2:{ apply nth_error_None in E. lia. }
    simpl for_int. unfold bind at 1. rewrite Nat2Z.id, E. unfold free at 1.
    replace (Z.of_nat lo + 1) with (Z.of_nat (S lo)) by lia.
    rewrite IH by lia. rewrite (skipn_nth_error _ _ _ E). simpl.
    rewrite <- app_assoc. reflexivity.
Qed.

Lemma delete_spec (d : A.t) (fs : list Free) :
  A.wf d ->
  A.delete d fs
  = Some (tt, fs ++ map FreeStrip (A.strips_ d)
                 ++ [FreeStripArray; FreeMultiSPI (A.spi_ d)]).
Proof.
  intros (Hn & Hlen & _). unfold A.delete.
  change (for_int 0) with (for_int (S := list Free) (Z.of_nat 0)).
  unfold bind at 1. rewrite delete_loop by (simpl; lia).
  simpl skipn. rewrite <- Hlen, firstn_all.
  unfold bind, free. rewrite <- !app_assoc. reflexivity.
Qed.

Lemma freed_strips (hs : list Handle) : freed (map FreeStrip hs) = hs.
Proof.
  induction hs as [|h hs IH]; [reflexivity|].
  unfold freed in *. simpl. rewrite IH. reflexivity.
Qed.

Lemma created_app (l l' : list Event) : created (l ++ l') = created l ++ created l'.
Proof. unfold created. apply flat_map_app. Qed.

Lemma seq_handles (nh : nat) (n : nat) (k : nat) :
  (k < n)%nat -> nth k (seq (S nh) n) O = (S nh + k)%nat.
Proof. intros H. apply seq_nth. exact H. Qed.

Lemma map_add_seq (nh n : nat) :
  map (fun i => (nh + i)%nat) (seq 0 n) = seq nh n.
Proof.
  revert nh. induction n as [|n IH]; intros nh; [reflexivity|].
  simpl. rewrite Nat.add_0_r. f_equal.
  rewrite <- seq_shift, map_map, <- (IH (S nh)).
  apply map_ext. intros i. lia.
Qed.

Lemma created_strips (chip : Chip) (spi : Handle) (pin : nat -> Z) (len : Z)
  (nh n : nat) :
  created (map (fun i => ECreateStrip chip spi (pin i) len (nh + i)%nat)
               (seq 0 n))
  = seq nh n.
Proof.
  transitivity (map (fun i => (nh + i)%nat) (seq 0 n)); [|apply map_add_seq].
  unfold created. induction (seq 0 n) as [|i l IH]; [reflexivity|].
  simpl. rewrite IH. reflexivity.
Qed.

(** X10: for a strip count that is a non-negative [int] the constructor
    returns.  It creates one bus controller at 12 MHz and then, in index
    order, one APA102 strip per index [k] on that controller, on the pin of
    connector [k + 1], of [strip_len] pixels; the handles are fresh and
    differ from one another. *)
Theorem constructor_builds_one_strip_per_connector (num_strips strip_len : Z)
  (w : World) :
  0 <= num_strips < 2 ^ 31 ->
  exists d w',
    A.new num_strips strip_len w = Some (d, w')
    /\ A.wf d
    /\ A.num_strips_ d = num_strips
    /\ A.strip_len_ d = strip_len
    /\ log w'
       = log w
         ++ ECreateDirectMultiSPI 12 (A.spi_ d)
         :: map (fun k => ECreateStrip APA102 (A.spi_ d)
                            (SPIPinForConnector (Z.of_nat k + 1)) strip_len
                            (A.strip_handle d (Z.of_nat k)))
                (seq 0 (Z.to_nat num_strips))
    /\ NoDup (A.spi_ d :: A.strips_ d)
    /\ (forall h, In h (A.spi_ d :: A.strips_ d) ->
          (next_handle w <= h < next_handle w')%nat).
Proof.
  intros Hn.
  pose proof (new_spec num_strips strip_len w ltac:(lia)) as Hnew.
  eexists _, _. split; [exact Hnew|].
  split; [exact (new_wf _ _ _ _ _ Hn Hnew)|].
  split; [reflexivity|]. split; [reflexivity|]. simpl.
  split; [|split].
  - do 2 f_equal. apply map_ext_in. intros k Hk. apply in_seq in Hk.
    unfold A.strip_handle. simpl. rewrite Nat2Z.id, seq_handles by lia.
    reflexivity.
  - constructor; [|apply seq_NoDup]. rewrite in_seq. lia.
  - intros h [<- | Hh]; [lia|]. apply in_seq in Hh. lia.
Qed.

(** X11: what the constructor creates, the destructor deletes: every strip
    once, in index order, and the bus controller once, after the strips. *)
Theorem destructor_deletes_what_was_created (num_strips strip_len : Z)
  (w : World) :
  0 <= num_strips < 2 ^ 31 ->
  exists d w' fs,
    A.new num_strips strip_len w = Some (d, w')
    /\ A.delete d [] = Some (tt, fs)
    /\ created (log w') = created (log w) ++ A.spi_ d :: A.strips_ d
    /\ freed fs = A.strips_ d ++ [A.spi_ d]
    /\ NoDup (freed fs).
Proof.
  intros Hn.
  pose proof (new_spec num_strips strip_len w ltac:(lia)) as Hnew.
  pose proof (new_wf _ _ _ _ _ Hn Hnew) as Hwf.
  eexists _, _, _. split; [exact Hnew|].
  split; [apply delete_spec; exact Hwf|]. simpl.
  assert (Hfreed : forall hs spi,
             freed (map FreeStrip hs ++ [FreeStripArray; FreeMultiSPI spi])
             = hs ++ [spi]).
  { intros hs spi. unfold freed. rewrite flat_map_app.
    fold (freed (map FreeStrip hs)). rewrite freed_strips. reflexivity. }
  split; [|split].
  - rewrite created_app. f_equal. simpl. f_equal.
    exact (created_strips APA102 _
             (fun i => SPIPinForConnector (0 + Z.of_nat i + 1)) _
             (S (next_handle w)) _).
  - apply Hfreed.
  - rewrite Hfreed. apply NoDup_app.
    + apply seq_NoDup.
    + repeat constructor. intros [].
    + intros h Hh [<- | []]. apply in_seq in Hh. lia.
Qed.

End Construction.

(** ** Edge cases and the other class *)

Section Others.
Context {env : Env}.

(** X12: a device built for zero strips makes no call into spixels but the
    [SendBuffers] of each [FlushFrame]: every pixel write and every
    brightness command is dropped. *)
Theorem device_without_strips_only_flushes (o : Object A.t) (cs : list Call) :
  A.wf (this o) ->
  A.num_strips_ (this o) = 0 ->
  Forall call_ok cs ->
  exists o' es,
    run cs o = Some (tt, o')
    /\ log (world o') = log (world o) ++ es
    /\ driver_calls es
       = map (fun _ => ESendBuffers (A.spi_ (this o))) (filter is_flush cs).
Proof.
  intros Hwf H0 Hcs.
  exists (logged o (flat_map (A.call_events (this o)) cs)).
  exists (flat_map (A.call_events (this o)) cs).
  split; [apply run_events; assumption|]. split; [reflexivity|].
  assert (Hnil : A.strips_ (this o) = []).
  { destruct Hwf as (_ & Hlen & _). rewrite H0 in Hlen.
    destruct (A.strips_ (this o)); [reflexivity | discriminate]. }
  induction Hcs as [|c cs Hc _ IH]; [reflexivity|].
  simpl flat_map. unfold driver_calls in *. rewrite filter_app, IH.
  destruct c as [buf size|strip pixel col|]; simpl in *.
  - destruct (command_events_cases (this o) buf size)
      as [[H ->] | [[H ->] | [[H [line ->]] | [[H [s ->]]
         | [[H ->] | [H (k & s & Hk & ->)]]]]]];
      try reflexivity.
    + rewrite Hnil. reflexivity.
    + lia.
  - unfold A.pixel_events.
    replace (strip <? A.num_strips_ (this o)) with false
      by (symmetry; apply Z.ltb_ge; lia).
    reflexivity.
  - reflexivity.
Qed.

Lemma lpd_delete_spec (d : L.t) (fs : list Free) :
  L.wf d ->
  L.delete d fs
  = Some (tt, fs ++ map FreeStrip (L.strips_ d)
                 ++ [FreeStripArray; FreeMultiSPI (L.spi_ d)]).
Proof.
  intros (Hn & Hlen & _). unfold L.delete.
  change (for_int 0) with (for_int (S := list Free) (Z.of_nat 0)).
  unfold bind at 1. rewrite delete_loop by (simpl; lia).
  simpl skipn. rewrite <- Hlen, firstn_all.
  unfold bind, free. rewrite <- !app_assoc. reflexivity.
Qed.

(** X13: the LPD6803 constructor creates one bus controller at 4 MHz and, in
    index order, one LPD6803 strip per index [k] on the pin of connector
    [k + 1]; the destructor deletes each of them once, the bus controller
    last. *)
Theorem lpd6803_constructor_and_destructor (num_strips strip_len : Z)
  (w : World) :
  0 <= num_strips < 2 ^ 31 ->
  exists d w' fs,
    L.new num_strips strip_len w = Some (d, w')
    /\ L.wf d
    /\ L.num_strips_ d = num_strips
    /\ L.strip_len_ d = strip_len
    /\ log w'
       = log w
         ++ ECreateDirectMultiSPI 4 (L.spi_ d)
         :: map (fun k => ECreateStrip LPD6803 (L.spi_ d)
                            (SPIPinForConnector (Z.of_nat k + 1)) strip_len
                            (L.strip_handle d (Z.of_nat k)))
                (seq 0 (Z.to_nat num_strips))
    /\ L.delete d [] = Some (tt, fs)
    /\ freed fs = L.strips_ d ++ [L.spi_ d]
    /\ NoDup (freed fs).
Proof.
  intros Hn.
  pose proof (lpd_new_spec num_strips strip_len w ltac:(lia)) as Hnew.
  assert (Hwf : L.wf (L.mk num_strips strip_len
                        (seq (S (next_handle w)) (Z.to_nat num_strips))
                        (next_handle w))).
  { unfold L.wf. simpl. split; [exact Hn|].
    split; [apply length_seq | apply seq_NoDup]. }
  eexists _, _, _. split; [exact Hnew|]. split; [exact Hwf|].
  split; [reflexivity|]. split; [reflexivity|]. simpl.
  assert (Hfreed : forall hs spi,
             freed (map FreeStrip hs ++ [FreeStripArray; FreeMultiSPI spi])
             = hs ++ [spi]).
  { intros hs spi. unfold freed. rewrite flat_map_app.
    fold (freed (map FreeStrip hs)). rewrite freed_strips. reflexivity. }
  split; [|split; [apply lpd_delete_spec; exact Hwf|split]].
  - do 2 f_equal. apply map_ext_in. intros k Hk. apply in_seq in Hk.
    unfold L.strip_handle. simpl. rewrite Nat2Z.id, seq_handles by lia.
    reflexivity.
  - apply Hfreed.
  - simpl. rewrite Hfreed. apply NoDup_app.
    + apply seq_NoDup.
    + repeat constructor. intros [].
    + intros h Hh [<- | []]. apply in_seq in Hh. lia.
Qed.

(** X14: the LPD6803 device forwards pixels as the APA102 device does: a
    write on a strip index of [num_strips] or more changes nothing, a write
    on a smaller index is one [SetPixel8] on the strip at that index, for
    any pixel index; and [FlushFrame] is one [SendBuffers] on its bus. *)
Theorem lpd6803_forwards_pixels_and_flushes (o : Object L.t)
  (strip pixel : Z) (col : PixelColor) :
  L.wf (this o) ->
  0 <= strip < 2 ^ 32 ->
  exists o',
    L.SetPixel strip pixel col o = Some (tt, o')
    /\ (L.num_strips_ (this o) <= strip -> o' = o)
    /\ (strip < L.num_strips_ (this o) ->
        nth_error (L.strips_ (this o)) (Z.to_nat strip)
        = Some (L.strip_handle (this o) strip)
        /\ o' = logged o [ESetPixel8 (L.strip_handle (this o) strip) pixel
                                     (red col) (green col) (blue col)])
    /\ L.FlushFrame o = Some (tt, logged o [ESendBuffers (L.spi_ (this o))]).
Proof.
  intros Hwf Hstrip. pose proof Hwf as (Hn & Hlen & Hnd).
  exists (logged o (L.pixel_events (this o) strip pixel col)).
  split.
  - unfold L.SetPixel, L.pixel_events. rewrite bind_member.
    rewrite uint32_small by lia.
    destruct (strip <? L.num_strips_ (this o)) eqn:Ek.
    + apply Z.ltb_lt in Ek.
      assert (Hat : L.strips_at strip o
                    = Some (L.strip_handle (this o) strip, o)).
      { unfold L.strips_at, L.strip_handle.
        rewrite nth_error_nth' with (d := O) by (unfold Handle in *; lia).
        reflexivity. }
      rewrite (bind_some _ _ _ _ _ Hat). reflexivity.
    + unfold ret. rewrite logged_nil. reflexivity.
  - unfold L.pixel_events. split; [|split; [|reflexivity]].
    + intros H.
      replace (strip <? L.num_strips_ (this o)) with false
        by (symmetry; apply Z.ltb_ge; lia).
      apply logged_nil.
    + intros H.
      replace (strip <? L.num_strips_ (this o)) with true
        by (symmetry; apply Z.ltb_lt; lia).
      split; [|reflexivity].
      unfold L.strip_handle. apply nth_error_nth'. unfold Handle in *. lia.
Qed.

End Others.

(** ** usage and main *)

Section MainProperties.
Context {env : Env} {host : Host}.

Lemma says_nil (w : World) : says w [] = w.
Proof. destruct w. unfold says. simpl. rewrite app_nil_r. reflexivity. Qed.

Lemma driver_calls_says (w : World) (lines : list string) :
  driver_calls (log (says w lines)) = driver_calls (log w).
Proof.
  simpl. apply driver_calls_quiet. unfold quiet.
  induction lines as [|line lines IH]; [reflexivity | exact IH].
Qed.

Lemma usage_spec (progname : string) (w : World) :
  Main.usage progname w
  = Some (1, says w [("usage: " ++ progname ++ " <options>" ++ newline)%string;
                     Main.usage_options]).
Proof.
  unfold Main.usage, bind, emit, ret, says. simpl.
  rewrite <- app_assoc. reflexivity.
Qed.

(** One option: the loop goes on with the world as it was, or [main]
    returns 1 after writing to stderr. *)
Lemma option_case_spec (progname : string) (opt : ascii) (optarg : string)
  (l : Main.Locals) (w : World) :
  (exists l',
      Main.option_case progname opt optarg l w = Some (Main.Continue l', w)
      /\ Main.num_strips l'
         = (if (opt =? "S")%char then atoi optarg else Main.num_strips l)
      /\ Main.strip_len l'
         = (if (opt =? "L")%char then atoi optarg else Main.strip_len l))
  \/ (exists lines,
        Main.option_case progname opt optarg l w
        = Some (Main.Return 1, says w lines)).
Proof.
  unfold Main.option_case.
  destruct (opt =? "S")%char eqn:ES.
  { left. eexists. split; [reflexivity|]. split; [reflexivity|].
    apply Ascii.eqb_eq in ES. subst opt. reflexivity. }
  destruct (opt =? "L")%char eqn:EL.
  { left. eexists. repeat split. }
  destruct (opt =? "i")%char; [left; eexists; repeat split|].
  destruct (opt =? "u")%char; [left; eexists; repeat split|].
  destruct (opt =? "G")%char; [left; eexists; repeat split|].
  destruct (opt =? "C")%char; [left; eexists; repeat split|].
  destruct (opt =? "a")%char.
  - destruct (sscanf_d_d optarg) as [[universe channel]|].
    + left. eexists. repeat split.
    + right. exists [Main.artnet_error]. reflexivity.
  - right. eexists. unfold bind. rewrite usage_spec. reflexivity.
Qed.

Lemma parse_options_step (progname : string) (opt : ascii) (optarg : string)
  (rest : list (ascii * string)) (l : Main.Locals) (w w1 : World)
  (r : Main.Parsed) :
  Main.option_case progname opt optarg l w = Some (r, w1) ->
  Main.parse_options progname ((opt, optarg) :: rest) l w
  = match r with
    | Main.Continue l' => Main.parse_options progname rest l' w1
    | Main.Return code => Some (Main.Return code, w1)
    end.
Proof.
  intros H. simpl. unfold bind. rewrite H. destruct r; reflexivity.
Qed.

Lemma parse_options_spec (progname : string) (opts : list (ascii * string))
  (l : Main.Locals) (w : World) :
  (exists l',
      Main.parse_options progname opts l w = Some (Main.Continue l', w)
      /\ Main.num_strips l'
         = match last_arg "S" opts with
           | Some a => atoi a
           | None => Main.num_strips l
           end
      /\ Main.strip_len l'
         = match last_arg "L" opts with
           | Some a => atoi a
           | None => Main.strip_len l
           end)
  \/ (exists lines,
        Main.parse_options progname opts l w
        = Some (Main.Return 1, says w lines)).
Proof.
  revert l. induction opts as [|[opt optarg] rest IH]; intros l.
  - left. exists l. repeat split.
  - destruct (option_case_spec progname opt optarg l w)
      as [(l1 & E & HS & HL) | (lines & E)];
      rewrite (parse_options_step _ _ _ _ _ _ _ _ E).
    + destruct (IH l1) as [(l' & Hp & HS' & HL') | (lines & Hp)].
      * left. exists l'. split; [exact Hp|]. simpl last_arg.
        rewrite HS', HL', HS, HL.
        destruct (last_arg "S" rest), (last_arg "L" rest),
          (opt =? "S")%char, (opt =? "L")%char; repeat split.
      * right. exists lines. exact Hp.
    + right. exists lines. reflexivity.
Qed.

Lemma parse_options_app (progname : string) (a b : list (ascii * string))
  (l l' : Main.Locals) (w : World) :
  Main.parse_options progname a l w = Some (Main.Continue l', w) ->
  Main.parse_options progname (a ++ b) l w = Main.parse_options progname b l' w.
Proof.
  revert l. induction a as [|[opt optarg] a IH]; intros l H.
  - simpl in H. unfold ret in H. injection H as ->. reflexivity.
  - simpl app.
    destruct (option_case_spec progname opt optarg l w)
      as [(l1 & E & _) | (lines & E)];
      rewrite (parse_options_step _ _ _ (a ++ b) _ _ _ _ E);
      rewrite (parse_options_step _ _ _ a _ _ _ _ E) in H.
    + apply IH. exact H.
    + discriminate.
Qed.

Lemma main_returns (progname : string) (opts : list (ascii * string))
  (uid : Z) (server_started : bool) (p : Process) (code : Z) (w1 : World) :
  Main.parse_options progname opts Main.initial (proc_world p)
  = Some (Main.Return code, w1) ->
  Main.main progname opts uid server_started p
  = Some (Main.Exited code, mkProcess w1 (proc_freed p)).
Proof.
  intros H. unfold Main.main, bind, in_world. rewrite H. reflexivity.
Qed.

Lemma main_not_root (progname : string) (opts : list (ascii * string))
  (uid : Z) (server_started : bool) (p : Process) (l : Main.Locals)
  (w1 : World) :
  Main.parse_options progname opts Main.initial (proc_world p)
  = Some (Main.Continue l, w1) ->
  uid <> 0 ->
  Main.main progname opts uid server_started p
  = Some (Main.Exited 1,
          mkProcess (says w1 [Main.root_error progname]) (proc_freed p)).
Proof.
  intros H Huid. unfold Main.main, bind, in_world. rewrite H.
  replace (uid =? 0) with false by (symmetry; apply Z.eqb_neq; exact Huid).
  reflexivity.
Qed.

Lemma main_root (progname : string) (opts : list (ascii * string))
  (server_started : bool) (p : Process) (l : Main.Locals) (w1 : World) :
  Main.parse_options progname opts Main.initial (proc_world p)
  = Some (Main.Continue l, w1) ->
  Main.main progname opts 0 server_started p
  = match A.new (Main.num_strips l) (Main.strip_len l) w1 with
    | Some (d, w2) =>
        if server_started
        then Some (Main.Serving d (Main.pp_options l),
                   mkProcess w2 (proc_freed p))
        else match A.delete d (proc_freed p) with
             | Some (_, fs) => Some (Main.Exited 1, mkProcess w2 fs)
             | None => None
             end
    | None => None
    end.
Proof.
  intros H. unfold Main.main. unfold bind at 1. unfold in_world at 1.
  rewrite H. change (negb (0 =? 0)) with false. cbv iota.
  unfold bind at 1. unfold in_world at 1. cbn [proc_world proc_freed].
  destruct (A.new (Main.num_strips l) (Main.strip_len l) w1) as [[d w2]|];
    [|reflexivity].
  destruct server_started; [reflexivity|].
  cbn [negb]. unfold bind, in_heap. cbn [proc_world proc_freed].
  destruct (A.delete d (proc_freed p)) as [[[] fs]|]; reflexivity.
Qed.

Lemma new_negative (num_strips strip_len : Z) (w : World) :
  num_strips < 0 -> A.new num_strips strip_len w = None.
Proof.
  intros H. unfold A.new.
  replace (num_strips <? 0) with true by (symmetry; apply Z.ltb_lt; exact H).
  reflexivity.
Qed.

(** X15: whoever is not root gets exit status 1, whatever the options: no
    object of spixels is created or called, nothing is deleted. *)
Theorem main_needs_root (progname : string) (opts : list (ascii * string))
  (uid : Z) (server_started : bool) (p : Process) :
  uid <> 0 ->
  exists p',
    Main.main progname opts uid server_started p = Some (Main.Exited 1, p')
    /\ driver_calls (log (proc_world p')) = driver_calls (log (proc_world p))
    /\ next_handle (proc_world p') = next_handle (proc_world p)
    /\ proc_freed p' = proc_freed p.
Proof.
  intros Huid.
  destruct (parse_options_spec progname opts Main.initial (proc_world p))
    as [(l & H & _) | (lines & H)].
  - eexists. split; [exact (main_not_root _ _ _ _ _ _ _ H Huid)|].
    cbn [proc_world proc_freed].
    split; [apply driver_calls_says | split; reflexivity].
  - eexists. split; [exact (main_returns _ _ _ _ _ _ _ H)|].
    cbn [proc_world proc_freed].
    split; [apply driver_calls_says | split; reflexivity].
Qed.

(** X16: [main] never returns 0.  It returns 1, or it stays in its final
    loop with a device, which takes root and a started server; it ends
    abnormally only as root. *)
Theorem main_outcomes (progname : string) (opts : list (ascii * string))
  (uid : Z) (server_started : bool) (p : Process) :
  match Main.main progname opts uid server_started p with
  | Some (Main.Exited code, _) => code = 1
  | Some (Main.Serving d _, _) =>
      uid = 0 /\ server_started = true /\ 0 <= A.num_strips_ d
  | None => uid = 0
  end.
Proof.
  destruct (parse_options_spec progname opts Main.initial (proc_world p))
    as [(l & H & _) | (lines & H)].
  2:{ rewrite (main_returns _ _ _ _ _ _ _ H). reflexivity. }
  destruct (Z.eq_dec uid 0) as [-> | Huid].
  2:{ rewrite (main_not_root _ _ _ _ _ _ _ H Huid). reflexivity. }
  rewrite (main_root _ _ _ _ _ _ H).
  destruct (Z_lt_dec (Main.num_strips l) 0) as [Hneg | Hpos].
  - rewrite new_negative by exact Hneg. reflexivity.
  - rewrite new_spec by lia. destruct server_started.
    + cbn [A.num_strips_]. repeat split. lia.
    + destruct (A.delete _ _) as [[[] fs]|]; reflexivity.
Qed.

(** X17: at the first option the [switch] has no case for, [main] prints the
    usage text and returns 1, whatever options follow, whoever the user is:
    the options after it are not looked at and no device is built. *)
Theorem unknown_option_prints_usage (progname : string)
  (before after : list (ascii * string)) (opt : ascii) (optarg : string)
  (l : Main.Locals) (uid : Z) (server_started : bool) (p : Process) :
  Main.parse_options progname before Main.initial (proc_world p)
  = Some (Main.Continue l, proc_world p) ->
  known_option opt = false ->
  Main.main progname (before ++ (opt, optarg) :: after) uid server_started p
  = Some (Main.Exited 1,
          mkProcess
            (says (proc_world p)
                  [("usage: " ++ progname ++ " <options>" ++ newline)%string;
                   Main.usage_options])
            (proc_freed p)).
Proof.
  intros Hbefore Hopt. apply main_returns.
  rewrite (parse_options_app _ _ _ _ _ _ Hbefore).
  assert (E : Main.option_case progname opt optarg l (proc_world p)
              = Some (Main.Return 1,
                      says (proc_world p)
                        [("usage: " ++ progname ++ " <options>"
                            ++ newline)%string;
                         Main.usage_options])).
  { unfold known_option in Hopt. simpl in Hopt.
    repeat (apply orb_false_elim in Hopt; destruct Hopt as [? Hopt]).
    unfold Main.option_case.
    repeat match goal with
           | H : (opt =? _)%char = false |- _ => rewrite H; clear H
           end.
    unfold bind. rewrite usage_spec. reflexivity. }
  rewrite (parse_options_step _ _ _ _ _ _ _ _ E). reflexivity.
Qed.

(** X18: the device [main] serves with has the strip count of the last [-S]
    option, 8 without one, and the strip length of the last [-L] option, 480
    without one; the server gets the options [main] parsed. *)
Theorem last_option_decides_the_topology (progname : string)
  (opts : list (ascii * string)) (uid : Z) (server_started : bool)
  (p p' : Process) (d : A.t) (options : PPOptions) :
  Main.main progname opts uid server_started p
  = Some (Main.Serving d options, p') ->
  A.num_strips_ d = match last_arg "S" opts with
                    | Some a => atoi a
                    | None => 8
                    end
  /\ A.strip_len_ d = match last_arg "L" opts with
                      | Some a => atoi a
                      | None => 480
                      end
  /\ Z.of_nat (List.length (A.strips_ d)) = A.num_strips_ d
  /\ proc_freed p' = proc_freed p.
Proof.
  destruct (parse_options_spec progname opts Main.initial (proc_world p))
    as [(l & H & HS & HL) | (lines & H)].
  2:{ rewrite (main_returns _ _ _ _ _ _ _ H). discriminate. }
  destruct (Z.eq_dec uid 0) as [-> | Huid].
  2:{ rewrite (main_not_root _ _ _ _ _ _ _ H Huid). discriminate. }
  rewrite (main_root _ _ _ _ _ _ H).
  destruct (Z_lt_dec (Main.num_strips l) 0) as [Hneg | Hpos].
  { rewrite new_negative by exact Hneg. discriminate. }
  rewrite new_spec by lia. destruct server_started.
  - intros E. injection E as <- _ <-. cbn [A.num_strips_ A.strip_len_ A.strips_].
    split; [exact HS|]. split; [exact HL|]. split; [|reflexivity].
    rewrite length_seq. lia.
  - destruct (A.delete _ _) as [[[] fs]|]; discriminate.
Qed.

(** X19: as root, with options the loop accepts, a strip count that is not
    negative and a server that starts, [main] builds one APA102 device of
    the parsed strip count and length on a 12 MHz bus, hands the server the
    parsed options, deletes nothing and does not return. *)
Theorem main_serves_an_APA102_rig (progname : string)
  (opts : list (ascii * string)) (p : Process) (l : Main.Locals) :
  Main.parse_options progname opts Main.initial (proc_world p)
  = Some (Main.Continue l, proc_world p) ->
  0 <= Main.num_strips l ->
  exists d w',
    Main.main progname opts 0 true p
    = Some (Main.Serving d (Main.pp_options l), mkProcess w' (proc_freed p))
    /\ A.num_strips_ d = Main.num_strips l
    /\ A.strip_len_ d = Main.strip_len l
    /\ log w'
       = log (proc_world p)
         ++ ECreateDirectMultiSPI 12 (A.spi_ d)
         :: map (fun k => ECreateStrip APA102 (A.spi_ d)
                            (SPIPinForConnector (Z.of_nat k + 1))
                            (Main.strip_len l)
                            (A.strip_handle d (Z.of_nat k)))
                (seq 0 (Z.to_nat (Main.num_strips l))).
Proof.
  intros H Hn. rewrite (main_root _ _ _ _ _ _ H), new_spec by exact Hn.
  eexists _, _. split; [reflexivity|].
  split; [reflexivity|]. split; [reflexivity|]. simpl.
  do 2 f_equal. apply map_ext_in. intros k Hk. apply in_seq in Hk.
  unfold A.strip_handle. simpl. rewrite Nat2Z.id, seq_handles by lia.
  reflexivity.
Qed.

(** X20: when the server does not start, [main] returns 1 and on the way out
    deletes the device it built: every strip once, then the bus controller;
    nothing it created stays. *)
Theorem failed_server_start_deletes_the_device (progname : string)
  (opts : list (ascii * string)) (p : Process) (l : Main.Locals) :
  Main.parse_options progname opts Main.initial (proc_world p)
  = Some (Main.Continue l, proc_world p) ->
  0 <= Main.num_strips l < 2 ^ 31 ->
  exists d w',
    A.new (Main.num_strips l) (Main.strip_len l) (proc_world p) = Some (d, w')
    /\ Main.main progname opts 0 false p
       = Some (Main.Exited 1,
               mkProcess w'
                 (proc_freed p ++ map FreeStrip (A.strips_ d)
                    ++ [FreeStripArray; FreeMultiSPI (A.spi_ d)]))
    /\ created (log w')
       = created (log (proc_world p)) ++ A.spi_ d :: A.strips_ d.
Proof.
  intros H Hn. rewrite (main_root _ _ _ _ _ _ H).
  pose proof (new_spec (Main.num_strips l) (Main.strip_len l) (proc_world p)
                ltac:(lia)) as Hnew.
  pose proof (new_wf _ _ _ _ _ Hn Hnew) as Hwf.
  rewrite Hnew. eexists _, _. split; [reflexivity|].
  rewrite (delete_spec _ _ Hwf). split; [reflexivity|]. simpl.
  rewrite created_app. f_equal. simpl. f_equal.
  exact (created_strips APA102 _
           (fun i => SPIPinForConnector (0 + Z.of_nat i + 1)) _
           (S (next_handle (proc_world p))) _).
Qed.

(** X21: a negative strip count is not refused with a message: as root,
    when the last [-S] option reads as a negative number, [main] ends
    abnormally in the constructor. *)
Theorem negative_strip_count_aborts (progname : string)
  (opts : list (ascii * string)) (server_started : bool) (p : Process)
  (l : Main.Locals) (a : string) :
  Main.parse_options progname opts Main.initial (proc_world p)
  = Some (Main.Continue l, proc_world p) ->
  last_arg "S" opts = Some a ->
  atoi a < 0 ->
  Main.main progname opts 0 server_started p = None.
Proof.
  intros H Hlast Hneg. rewrite (main_root _ _ _ _ _ _ H).
  destruct (parse_options_spec progname opts Main.initial (proc_world p))
    as [(l' & H' & HS & _) | (lines & H')]; rewrite H' in H;
    [|discriminate].
  injection H as <-. rewrite Hlast in HS.
  rewrite new_negative by (rewrite HS; exact Hneg). reflexivity.
Qed.

End MainProperties.

(** ** The rest of the file on concrete inputs *)

Lemma lpd_rig_wf (num_strips strip_len : Z) :
  0 <= num_strips < 2 ^ 31 -> L.wf (this (lpd_rig num_strips strip_len)).
Proof.
  intros H. unfold L.wf, lpd_rig. simpl. split; [exact H|]. split.
  - apply length_seq.
  - apply seq_NoDup.
Qed.

Lemma HandlePusherCommand_reads_within_size_witness :
  exists o' es,
    A.HandlePusherCommand (env := rpi_env) strip1_dark 4 (rig 4 10)
    = Some (tt, o')
    /\ log (world o') = log (world (rig 4 10)) ++ es
    /\ Forall (fun off => 0 <= off < 4) (loads es)
    /\ (List.length (loads es) <= 4)%nat.
Proof.
  apply (HandlePusherCommand_reads_within_size (env := rpi_env)
           (rig 4 10) strip1_dark 4).
  - apply rig_wf. lia.
  - simpl. lia.
Defined.

Lemma HandlePusherCommand_leaves_pixels_witness :
  exists o',
    A.HandlePusherCommand (env := rpi_env) global_full 3 (rig 4 10)
    = Some (tt, o')
    /\ this o' = this (rig 4 10)
    /\ (forall h p, buffered_pixel (log (world o')) h p
                    = buffered_pixel (log (world (rig 4 10))) h p)
    /\ transmissions (log (world o')) = transmissions (log (world (rig 4 10))).
Proof.
  apply (HandlePusherCommand_leaves_pixels (env := rpi_env)
           (rig 4 10) global_full 3).
  - apply rig_wf. lia.
  - simpl. lia.
Defined.

Lemma scale_is_positive_and_increasing_witness :
  exists q q',
    float_denotes (A.scale_of (0 + 1)) q
    /\ float_denotes (A.scale_of (65535 + 1)) q'
    /\ (0 < q)%Q /\ (q < q')%Q /\ (q' <= 1)%Q
    /\ A.scale_of (0 + 1) <> A.scale_of (65535 + 1).
Proof.
  apply (scale_is_positive_and_increasing 0 65535); lia.
Defined.

Lemma command_is_its_first_four_bytes_witness :
  A.HandlePusherCommand (env := rpi_env) strip1_dark 4 (rig 4 10)
  = A.HandlePusherCommand (env := rpi_env) strip1_dark_padded 5 (rig 4 10).
Proof.
  apply (command_is_its_first_four_bytes (env := rpi_env) (rig 4 10)
           strip1_dark strip1_dark_padded 4 5).
  - apply rig_wf. lia.
  - simpl. lia.
  - simpl. lia.
  - reflexivity.
Defined.

Lemma global_then_strip_brightness_witness :
  exists o1 o2,
    A.HandlePusherCommand (env := rpi_env) global_full 3 (rig 4 10)
    = Some (tt, o1)
    /\ A.HandlePusherCommand (env := rpi_env) strip1_dark 4 o1 = Some (tt, o2)
    /\ A.strip_brightness o2 1 = Some f1_65536
    /\ A.strip_brightness o2 3 = Some f1.
Proof.
  destruct (global_then_strip_brightness (env := rpi_env) (rig 4 10)
              global_full strip1_dark 3 4) as (o1 & o2 & H1 & H2 & Hall).
  - apply rig_wf. lia.
  - simpl. lia.
  - simpl. lia.
  - reflexivity.
  - simpl. lia.
  - reflexivity.
  - left. reflexivity.
  - vm_compute. reflexivity.
  - exists o1, o2. split; [exact H1|]. split; [exact H2|].
    split; [apply (Hall 1) | apply (Hall 3)]; simpl; lia.
Defined.

Lemma SetPixel_last_write_stays_witness :
  exists o1 o2,
    A.SetPixel 1 12 red_pixel (rig 4 10) = Some (tt, o1)
    /\ A.SetPixel 1 12 (mkPixelColor 0 0 255) o1 = Some (tt, o2)
    /\ buffered_pixel (log (world o2)) 2%nat 12 = Some (mkPixelColor 0 0 255).
Proof.
  destruct (SetPixel_last_write_stays (rig 4 10) 1 12 red_pixel
              (mkPixelColor 0 0 255)) as (o1 & o2 & H1 & H2 & Hp & _).
  - apply rig_wf. lia.
  - simpl. lia.
  - exists o1, o2. split; [exact H1|]. split; [exact H2 | exact Hp].
Defined.

Lemma one_transmission_per_flush_witness :
  exists o',
    run (dev := A.device (env := rpi_env)) one_frame (rig 4 10)
    = Some (tt, o')
    /\ List.length (transmissions (log (world o'))) = 1%nat.
Proof.
  apply (one_transmission_per_flush (env := rpi_env) (rig 4 10) one_frame).
  - apply rig_wf. lia.
  - exact one_frame_ok.
Defined.

Lemma signed_char_index_byte_is_dropped_witness :
  A.HandlePusherCommand (env := signed_char_env) strip200_full 4 (rig 256 10)
  = Some (tt, logged (rig 256 10) [ELoad 0; ELoad 1]).
Proof.
  apply (signed_char_index_byte_is_dropped (env := signed_char_env)
           (rig 256 10) strip200_full 4).
  - apply rig_wf. lia.
  - simpl. lia.
  - simpl. lia.
  - reflexivity.
  - reflexivity.
  - vm_compute. discriminate.
Defined.

Lemma calls_stay_on_own_objects_witness :
  exists o' es,
    run (dev := A.device (env := rpi_env)) one_frame (rig 4 10)
    = Some (tt, o')
    /\ log (world o') = log (world (rig 4 10)) ++ es
    /\ Forall (on_own_object (this (rig 4 10))) es.
Proof.
  apply (calls_stay_on_own_objects (env := rpi_env) (rig 4 10) one_frame).
  - apply rig_wf. lia.
  - exact one_frame_ok.
Defined.

Lemma constructor_builds_one_strip_per_connector_witness :
  exists d w',
    A.new (env := rpi_env) 4 10 empty_world = Some (d, w')
    /\ A.num_strips_ d = 4
    /\ NoDup (A.spi_ d :: A.strips_ d).
Proof.
  destruct (constructor_builds_one_strip_per_connector (env := rpi_env)
              4 10 empty_world) as (d & w' & H & _ & Hn & _ & _ & Hnd & _).
  - lia.
  - exists d, w'. split; [exact H|]. split; [exact Hn | exact Hnd].
Defined.

Lemma destructor_deletes_what_was_created_witness :
  exists d w' fs,
    A.new (env := rpi_env) 4 10 empty_world = Some (d, w')
    /\ A.delete d [] = Some (tt, fs)
    /\ created (log w') = created (log empty_world) ++ A.spi_ d :: A.strips_ d
    /\ freed fs = A.strips_ d ++ [A.spi_ d]
    /\ NoDup (freed fs).
Proof.
  apply (destructor_deletes_what_was_created (env := rpi_env)
           4 10 empty_world).
  lia.
Defined.

Lemma device_without_strips_only_flushes_witness :
  exists o' es,
    run (dev := A.device (env := rpi_env)) one_frame (rig 0 10)
    = Some (tt, o')
    /\ log (world o') = log (world (rig 0 10)) ++ es
    /\ driver_calls es = [ESendBuffers O].
Proof.
  apply (device_without_strips_only_flushes (env := rpi_env)
           (rig 0 10) one_frame).
  - apply rig_wf. lia.
  - reflexivity.
  - exact one_frame_ok.
Defined.

Lemma lpd6803_constructor_and_destructor_witness :
  exists d w' fs,
    L.new (env := rpi_env) 4 10 empty_world = Some (d, w')
    /\ L.num_strips_ d = 4
    /\ L.delete d [] = Some (tt, fs)
    /\ freed fs = L.strips_ d ++ [L.spi_ d].
Proof.
  destruct (lpd6803_constructor_and_destructor (env := rpi_env)
              4 10 empty_world)
    as (d & w' & fs & H & _ & Hn & _ & _ & Hd & Hf & _).
  - lia.
  - exists d, w', fs. split; [exact H|]. split; [exact Hn|].
    split; [exact Hd | exact Hf].
Defined.

Lemma lpd6803_forwards_pixels_and_flushes_witness :
  exists o',
    L.SetPixel 1 12 red_pixel (lpd_rig 4 10) = Some (tt, o')
    /\ L.FlushFrame (lpd_rig 4 10)
       = Some (tt, logged (lpd_rig 4 10) [ESendBuffers O]).
Proof.
  destruct (lpd6803_forwards_pixels_and_flushes (lpd_rig 4 10) 1 12 red_pixel)
    as (o' & H & _ & _ & Hf).
  - apply lpd_rig_wf. lia.
  - lia.
  - exists o'. split; [exact H | exact Hf].
Defined.

Lemma main_needs_root_witness :
  exists p',
    Main.main (env := rpi_env) (host := example_host) "pp"
              [("S"%char, "16"%string)] 1000 true empty_process
    = Some (Main.Exited 1, p')
    /\ driver_calls (log (proc_world p')) = []
    /\ next_handle (proc_world p') = O
    /\ proc_freed p' = [].
Proof.
  apply (main_needs_root (env := rpi_env) (host := example_host)
           "pp" [("S"%char, "16"%string)] 1000 true empty_process).
  lia.
Defined.

Lemma unknown_option_prints_usage_witness :
  Main.main (env := rpi_env) (host := example_host) "pp"
            ([("S"%char, "16"%string)]
               ++ ("?"%char, ""%string) :: [("L"%char, "100"%string)])
            0 true empty_process
  = Some (Main.Exited 1,
          mkProcess
            (says empty_world
                  [("usage: " ++ "pp" ++ " <options>" ++ newline)%string;
                   Main.usage_options])
            []).
Proof.
  apply (unknown_option_prints_usage (env := rpi_env) (host := example_host)
           "pp" [("S"%char, "16"%string)] [("L"%char, "100"%string)]
           "?"%char ""%string
           (Main.mkLocals (Main.pp_options (Main.initial (host := example_host))) 16 480)
           0 true empty_process).
  - reflexivity.
  - reflexivity.
Defined.

Lemma last_option_decides_the_topology_witness :
  exists d options p',
    Main.main (env := rpi_env) (host := example_host) "pp"
              [("S"%char, "4"%string); ("S"%char, "16"%string)]
              0 true empty_process
    = Some (Main.Serving d options, p')
    /\ A.num_strips_ d = 16
    /\ A.strip_len_ d = 480.
Proof.
  assert (Hm : exists d options p',
             Main.main (env := rpi_env) (host := example_host) "pp"
                       [("S"%char, "4"%string); ("S"%char, "16"%string)]
                       0 true empty_process
             = Some (Main.Serving d options, p')).
  { eexists _, _, _. vm_compute. reflexivity. }
  destruct Hm as (d & options & p' & Hm).
  exists d, options, p'. split; [exact Hm|].
  destruct (last_option_decides_the_topology (env := rpi_env)
              (host := example_host) "pp"
              [("S"%char, "4"%string); ("S"%char, "16"%string)]
              0 true empty_process p' d options Hm) as (Hn & Hl & _).
  split; [exact Hn | exact Hl].
Defined.

Lemma main_serves_an_APA102_rig_witness :
  exists d w',
    Main.main (env := rpi_env) (host := example_host) "pp" [] 0 true
              empty_process
    = Some (Main.Serving d (Main.pp_options (Main.initial (host := example_host))), mkProcess w' [])
    /\ A.num_strips_ d = 8
    /\ A.strip_len_ d = 480.
Proof.
  destruct (main_serves_an_APA102_rig (env := rpi_env) (host := example_host)
              "pp" [] empty_process (Main.initial (host := example_host)))
    as (d & w' & H & Hn & Hl & _).
  - reflexivity.
  - simpl. lia.
  - exists d, w'. split; [exact H|]. split; [exact Hn | exact Hl].
Defined.

Lemma failed_server_start_deletes_the_device_witness :
  exists d w',
    Main.main (env := rpi_env) (host := example_host) "pp" [] 0 false
              empty_process
    = Some (Main.Exited 1,
            mkProcess w'
              ([] ++ map FreeStrip (A.strips_ d)
                  ++ [FreeStripArray; FreeMultiSPI (A.spi_ d)]))
    /\ created (log w') = created (log empty_world) ++ A.spi_ d :: A.strips_ d.
Proof.
  destruct (failed_server_start_deletes_the_device (env := rpi_env)
              (host := example_host) "pp" [] empty_process (Main.initial (host := example_host)))
    as (d & w' & _ & H & Hc).
  - reflexivity.
  - simpl. lia.
  - exists d, w'. split; [exact H | exact Hc].
Defined.

Lemma negative_strip_count_aborts_witness :
  Main.main (env := rpi_env) (host := example_host) "pp"
            [("S"%char, "-3"%string)] 0 true empty_process
  = None.
Proof.
  apply (negative_strip_count_aborts (env := rpi_env) (host := example_host)
           "pp" [("S"%char, "-3"%string)] true empty_process
           (Main.mkLocals (Main.pp_options (Main.initial (host := example_host))) (-3) 480) "-3"%string).
  - reflexivity.
  - reflexivity.
  - simpl. lia.
Defined.
